(** * Document validator: the request pipeline of [app.py]

    A shallow embedding of the Flask handler [validate], of the extractor
    [extract_text] and of the prompt/response function [validate_text],
    followed by the properties of the pipeline.

    Python values are modelled as follows.
    - A [str] is the list of its Unicode code points ([pystr]).
    - The contents of an uploaded file are a list of bytes.
    - The upload directory is a finite map from path strings to contents.
    - A raised exception threads through an error monad; a [return] inside
      a loop or an [except] block is a separate control result.
    - The libraries the program calls (PyMuPDF, python-docx, the Ollama
      client, the file writes of Werkzeug) are fields of a record [libs]. *)

From Stdlib Require Import String Ascii ZArith QArith Lia DecimalString.
From stdpp Require Import gmap list.
Set Warnings "-register-all".
Close Scope Q_scope.
Open Scope N_scope.

(** ** Strings *)

Module Str.

Definition pystr := list N.

(** Code points of a UTF-8 encoded byte sequence (used for the literals of
    the source file). *)
Fixpoint utf8_decode (bs : list N) : pystr :=
  match bs with
  | [] => []
  | b0 :: r0 =>
    if b0 <? 128 then b0 :: utf8_decode r0
    else if b0 <? 224 then
      match r0 with
      | b1 :: r1 => ((b0 - 192) * 64 + (b1 - 128)) :: utf8_decode r1
      | _ => []
      end
    else if b0 <? 240 then
      match r0 with
      | b1 :: b2 :: r2 =>
        ((b0 - 224) * 4096 + (b1 - 128) * 64 + (b2 - 128)) :: utf8_decode r2
      | _ => []
      end
    else
      match r0 with
      | b1 :: b2 :: b3 :: r3 =>
        ((b0 - 240) * 262144 + (b1 - 128) * 4096 + (b2 - 128) * 64 + (b3 - 128))
          :: utf8_decode r3
      | _ => []
      end
  end.

Definition u8 (s : string) : pystr :=
  utf8_decode (List.map N_of_ascii (list_ascii_of_string s)).

(** The double quote character, U+0022. *)
Definition dq : pystr := [34].

Definition eqb (a b : pystr) : bool := bool_decide (a = b).

(** [prefix in s[i:]]: [Some rest] when [s] starts with [p]. *)
Fixpoint strip_prefix (p s : pystr) : option pystr :=
  match p, s with
  | [], _ => Some s
  | c :: p', d :: s' => if c =? d then strip_prefix p' s' else None
  | _ :: _, [] => None
  end.

(** [Py_UNICODE_ISSPACE]: the code points [str.strip] treats as white
    space. *)
Definition is_space (c : N) : bool :=
  ((9 <=? c) && (c <=? 13)) || ((28 <=? c) && (c <=? 32))
  || (c =? 133) || (c =? 160) || (c =? 5760)
  || ((8192 <=? c) && (c <=? 8202))
  || (c =? 8232) || (c =? 8233) || (c =? 8239) || (c =? 8287) || (c =? 12288).

Fixpoint lstrip_with (space : N -> bool) (s : pystr) : pystr :=
  match s with
  | c :: r => if space c then lstrip_with space r else s
  | [] => []
  end.

Definition strip_with (space : N -> bool) (s : pystr) : pystr :=
  rev (lstrip_with space (rev (lstrip_with space s))).

(** [str.strip()] with no argument. *)
Definition strip (s : pystr) : pystr := strip_with is_space s.

(** [str.lower()] on the ASCII letters. The program compares the result
    only with [".pdf"] and [".docx"]; no code point outside [A-Z] has a
    lower-case form containing one of the characters of these two
    strings, so the comparisons are decided by this function. *)
Definition lower_char (c : N) : N :=
  if (65 <=? c) && (c <=? 90) then c + 32 else c.

Definition lower (s : pystr) : pystr := List.map lower_char s.

(** [sep.join(l)] *)
Fixpoint join (sep : pystr) (l : list pystr) : pystr :=
  match l with
  | [] => []
  | [x] => x
  | x :: r => x ++ sep ++ join sep r
  end.

(** [s.split(sep)] for a one-character separator. *)
Fixpoint split (sep : N) (s : pystr) : list pystr :=
  match s with
  | [] => [[]]
  | c :: r =>
    if c =? sep then [] :: split sep r
    else match split sep r with
         | w :: ws => (c :: w) :: ws
         | [] => [[c]]
         end
  end.

(** [s.rfind(c)]: index of the last occurrence. *)
Fixpoint rfind (c : N) (s : pystr) : option nat :=
  match s with
  | [] => None
  | d :: r =>
    match rfind c r with
    | Some i => Some (S i)
    | None => if d =? c then Some O else None
    end
  end.

(** [x or default] on strings: the empty string is falsy. *)
Definition or_else (x default : pystr) : pystr :=
  match x with [] => default | _ => x end.

End Str.
Import Str.

(** ** Built-in conversions *)

Module Builtins.

Definition ascii_digit (c : N) : option Z :=
  if (48 <=? c) && (c <=? 57) then Some (Z.of_N (c - 48)) else None.

Section Int.
  (** [Py_UNICODE_TODECIMAL] outside ASCII comes from the Unicode database
      of the interpreter. *)
Variable unicode_decimal : N -> option Z.

Definition decimal (c : N) : option Z :=
    if c <? 128 then ascii_digit c else unicode_decimal c.

  (** The digits of a base-10 literal: groups of digits separated by single
      underscores, up to the end of the text. [prev_digit] tells whether
      the previous character was a digit. *)
Fixpoint int_digits (s : pystr) (acc : Z) (prev_digit : bool) : option Z :=
    match s with
    | [] => if prev_digit then Some acc else None
    | c :: r =>
      if c =? 95 then
        if prev_digit then int_digits r acc false else None
      else
        match decimal c with
        | Some d => int_digits r (acc * 10 + d)%Z true
        | None => None
        end
    end.

  (** White space around the literal of [int]: the ASCII characters of the
      C locale, and the Unicode white space outside ASCII. *)
Definition is_int_space (c : N) : bool :=
    if c <? 128 then ((9 <=? c) && (c <=? 13)) || (c =? 32) else is_space c.

  (** [int(s)] for a [str]: surrounding white space is dropped, one sign is
      allowed. [None] stands for [ValueError]. *)
Definition py_int (s : pystr) : option Z :=
    match strip_with is_int_space s with
    | [] => None
    | c :: r =>
      if c =? 45 then Z.opp <$> int_digits r 0%Z false
      else if c =? 43 then int_digits r 0%Z false
      else int_digits (c :: r) 0%Z false
    end.
End Int.

(** [n / 100] on an [int]: true division, giving the float nearest to the
    quotient. The float is represented by the exact quotient it rounds;
    [None] stands for the [OverflowError] of a quotient beyond the range
    of a float. *)
Definition float_overflow_bound : Z := (2 ^ 1024 - 2 ^ 970)%Z.

Definition truediv_100 (n : Z) : option Q :=
  if (Z.abs n <? 100 * float_overflow_bound)%Z then Some (Qred (n # 100))
  else None.

End Builtins.
Import Builtins.

(** ** Python values and [json.loads] *)

Module Json.

(** The values [json.loads] builds and [jsonify] serialises. A float is
    kept as the literal it was read from. A [dict] keeps its keys in
    insertion order. *)
Inductive pyobj : Type :=
| PyNone
| PyBool (b : bool)
| PyInt (n : Z)
| PyFloat (literal : pystr)
| PyStr (s : pystr)
| PyList (items : list pyobj)
| PyDict (items : list (pystr * pyobj)).

(** [d[k] = v] *)
Fixpoint dict_set (k : pystr) (v : pyobj) (d : list (pystr * pyobj))
  : list (pystr * pyobj) :=
  match d with
  | [] => [(k, v)]
  | (k', v') :: r =>
    if eqb k k' then (k, v) :: r else (k', v') :: dict_set k v r
  end.

(** [d.get(k)] *)
Fixpoint dict_get (k : pystr) (d : list (pystr * pyobj)) : option pyobj :=
  match d with
  | [] => None
  | (k', v) :: r => if eqb k k' then Some v else dict_get k r
  end.

(** Result of scanning a prefix of the text: the value and the text left,
    a decoding error, or recursion budget exhausted. *)
Inductive parse (A : Type) : Type :=
| Parsed (a : A) (rest : pystr)
| Failed
| OutOfFuel.
Arguments Parsed {A} a rest.
Arguments Failed {A}.
Arguments OutOfFuel {A}.

(** [WHITESPACE]: space, tab, line feed, carriage return. *)
Definition is_ws (c : N) : bool :=
  (c =? 32) || (c =? 9) || (c =? 10) || (c =? 13).

Fixpoint skip_ws (s : pystr) : pystr :=
  match s with
  | c :: r => if is_ws c then skip_ws r else s
  | [] => []
  end.

Definition hex_digit (c : N) : option N :=
  if (48 <=? c) && (c <=? 57) then Some (c - 48)
  else if (97 <=? c) && (c <=? 102) then Some (c - 87)
  else if (65 <=? c) && (c <=? 70) then Some (c - 55)
  else None.

(** [_decode_uXXXX]: four hexadecimal digits. *)
Definition hex4 (a b c d : N) : option N :=
  match hex_digit a, hex_digit b, hex_digit c, hex_digit d with
  | Some x, Some y, Some z, Some w => Some (((x * 16 + y) * 16 + z) * 16 + w)
  | _, _, _, _ => None
  end.

(** The [BACKSLASH] table of one-character escapes. *)
Definition backslash (esc : N) : option N :=
  if esc =? 34 then Some 34
  else if esc =? 92 then Some 92
  else if esc =? 47 then Some 47
  else if esc =? 98 then Some 8
  else if esc =? 102 then Some 12
  else if esc =? 110 then Some 10
  else if esc =? 114 then Some 13
  else if esc =? 116 then Some 9
  else None.

Definition is_high_surrogate (c : N) : bool := (55296 <=? c) && (c <=? 56319).
Definition is_low_surrogate (c : N) : bool := (56320 <=? c) && (c <=? 57343).
Definition join_surrogates (hi lo : N) : N :=
  65536 + ((hi - 55296) * 1024 + (lo - 56320)).

(** [scanstring(s, end, strict=True)], started after the opening quote.
    [chunks] holds the characters decoded so far, last first. A high
    surrogate escape followed by a second escape that is not a low
    surrogate stays alone, and the second escape is read again. *)
Fixpoint scanstring (s : pystr) (chunks : pystr) : parse pystr :=
  match s with
  | [] => Failed
  | c :: r =>
    if c =? 34 then Parsed (rev chunks) r
    else if c <? 32 then Failed
    else if negb (c =? 92) then scanstring r (c :: chunks)
    else
      match r with
      | [] => Failed
      | esc :: r1 =>
        if negb (esc =? 117) then
          match backslash esc with
          | Some ch => scanstring r1 (ch :: chunks)
          | None => Failed
          end
        else
          match r1 with
          | h1 :: h2 :: h3 :: h4 :: r2 =>
            match hex4 h1 h2 h3 h4 with
            | None => Failed
            | Some uni =>
              if is_high_surrogate uni then
                match r2 with
                | b :: u :: k1 :: k2 :: k3 :: k4 :: r3 =>
                  if (b =? 92) && (u =? 117) then
                    match hex4 k1 k2 k3 k4 with
                    | None => Failed
                    | Some uni2 =>
                      if is_low_surrogate uni2
                      then scanstring r3 (join_surrogates uni uni2 :: chunks)
                      else scanstring r2 (uni :: chunks)
                    end
                  else scanstring r2 (uni :: chunks)
                | _ => scanstring r2 (uni :: chunks)
                end
              else scanstring r2 (uni :: chunks)
            end
          | _ => Failed
          end
      end
  end.

Definition is_digit (c : N) : bool := (48 <=? c) && (c <=? 57).

(** The longest run of ASCII digits and the text after it. *)
Fixpoint span_digits (s : pystr) : pystr * pystr :=
  match s with
  | c :: r =>
    if is_digit c then let '(ds, rest) := span_digits r in (c :: ds, rest)
    else ([], s)
  | [] => ([], [])
  end.

Definition digits_value (ds : pystr) : Z :=
  fold_left (fun acc c => (acc * 10 + Z.of_N (c - 48))%Z) ds 0%Z.

(** The three groups of [NUMBER_RE]: an integer part (an optional minus
    sign, then a single zero or a non-zero digit followed by digits), an
    optional fraction (a dot and at least one digit) and an optional
    exponent (e or E, an optional sign and at least one digit). *)
Definition number_integer (s : pystr) : option (bool * pystr * pystr) :=
  let '(neg, s1) :=
    match s with
    | c :: r => if c =? 45 then (true, r) else (false, s)
    | [] => (false, s)
    end in
  match s1 with
  | c :: r =>
    if c =? 48 then Some (neg, [c], r)
    else if is_digit c then
      let '(ds, rest) := span_digits r in Some (neg, c :: ds, rest)
    else None
  | [] => None
  end.

Definition number_frac (s : pystr) : pystr * pystr :=
  match s with
  | c :: r =>
    if c =? 46 then
      match span_digits r with
      | ([], _) => ([], s)
      | (ds, rest) => (c :: ds, rest)
      end
    else ([], s)
  | [] => ([], s)
  end.

Definition number_exp (s : pystr) : pystr * pystr :=
  match s with
  | e :: r =>
    if (e =? 101) || (e =? 69) then
      let '(sign, r1) :=
        match r with
        | c :: r' => if (c =? 45) || (c =? 43) then ([c], r') else ([], r)
        | [] => ([], r)
        end in
      match span_digits r1 with
      | ([], _) => ([], s)
      | (ds, rest) => (e :: sign ++ ds, rest)
      end
    else ([], s)
  | [] => ([], s)
  end.

(** [match_number] and the conversion that follows it in [_scan_once]. *)
Definition match_number (s : pystr) : option (pyobj * pystr) :=
  match number_integer s with
  | None => None
  | Some (neg, integer, s1) =>
    let '(frac, s2) := number_frac s1 in
    let '(exp, s3) := number_exp s2 in
    match frac, exp with
    | [], [] =>
      let v := digits_value integer in
      Some (PyInt (if neg then (- v)%Z else v), s3)
    | _, _ =>
      Some (PyFloat ((if neg then [45] else []) ++ integer ++ frac ++ exp), s3)
    end
  end.

Section Scanner.
  (** The scanner for nested values, [scan_once] one level down. *)
Variable scan : pystr -> parse pyobj.

  (** The [while True] loop of [JSONArray], entered at a value. *)
Fixpoint JSONArray_loop (n : nat) (s : pystr) (values : list pyobj)
    : parse pyobj :=
    match n with
    | O => OutOfFuel
    | S n' =>
      match scan s with
      | Parsed value rest =>
        match skip_ws rest with
        | c :: r =>
          if c =? 93 then Parsed (PyList (values ++ [value])) r
          else if c =? 44 then JSONArray_loop n' (skip_ws r) (values ++ [value])
          else Failed
        | [] => Failed
        end
      | Failed => Failed
      | OutOfFuel => OutOfFuel
      end
    end.

  (** [JSONArray], started after the opening bracket. *)
Definition JSONArray (n : nat) (s : pystr) : parse pyobj :=
    match skip_ws s with
    | c :: r =>
      if c =? 93 then Parsed (PyList []) r else JSONArray_loop n (c :: r) []
    | [] => JSONArray_loop n [] []
    end.

  (** The [while True] loop of [JSONObject], entered after the opening
      quote of a key. *)
Fixpoint JSONObject_loop (n : nat) (s : pystr) (pairs : list (pystr * pyobj))
    : parse pyobj :=
    match n with
    | O => OutOfFuel
    | S n' =>
      match scanstring s [] with
      | Parsed key rest =>
        match skip_ws rest with
        | c :: r =>
          if c =? 58 then
            match scan (skip_ws r) with
            | Parsed value rest' =>
              match skip_ws rest' with
              | c' :: r' =>
                if c' =? 125 then Parsed (PyDict (dict_set key value pairs)) r'
                else if c' =? 44 then
                  match skip_ws r' with
                  | q :: r'' =>
                    if q =? 34
                    then JSONObject_loop n' r'' (dict_set key value pairs)
                    else Failed
                  | [] => Failed
                  end
                else Failed
              | [] => Failed
              end
            | Failed => Failed
            | OutOfFuel => OutOfFuel
            end
          else Failed
        | [] => Failed
        end
      | Failed => Failed
      | OutOfFuel => OutOfFuel
      end
    end.

  (** [JSONObject], started after the opening brace. *)
Definition JSONObject (n : nat) (s : pystr) : parse pyobj :=
    match skip_ws s with
    | c :: r =>
      if c =? 125 then Parsed (PyDict []) r
      else if c =? 34 then JSONObject_loop n r []
      else Failed
    | [] => Failed
    end.
End Scanner.

(** The branches of [_scan_once] for values that are not containers or
    strings: the three keywords, a number, and the three float constants,
    tried in this order. *)
Definition scan_atom (s : pystr) : parse pyobj :=
  match strip_prefix (u8 "null") s with
  | Some rest => Parsed PyNone rest
  | None =>
  match strip_prefix (u8 "true") s with
  | Some rest => Parsed (PyBool true) rest
  | None =>
  match strip_prefix (u8 "false") s with
  | Some rest => Parsed (PyBool false) rest
  | None =>
  match match_number s with
  | Some (res, rest) => Parsed res rest
  | None =>
  match strip_prefix (u8 "NaN") s with
  | Some rest => Parsed (PyFloat (u8 "NaN")) rest
  | None =>
  match strip_prefix (u8 "Infinity") s with
  | Some rest => Parsed (PyFloat (u8 "Infinity")) rest
  | None =>
  match strip_prefix (u8 "-Infinity") s with
  | Some rest => Parsed (PyFloat (u8 "-Infinity")) rest
  | None => Failed
  end end end end end end end.

(** [_scan_once]: one value at the head of the text. [fuel] bounds the
    nesting depth and the number of items of a container. *)
Fixpoint scan_once (fuel : nat) (s : pystr) : parse pyobj :=
  match fuel with
  | O => OutOfFuel
  | S fuel' =>
    match s with
    | [] => Failed
    | nextchar :: r =>
      if nextchar =? 34 then
        match scanstring r [] with
        | Parsed str rest => Parsed (PyStr str) rest
        | Failed => Failed
        | OutOfFuel => OutOfFuel
        end
      else if nextchar =? 123 then JSONObject (scan_once fuel') fuel' r
      else if nextchar =? 91 then JSONArray (scan_once fuel') fuel' r
      else scan_atom s
    end
  end.

(** [json.loads(s)] for a [str]: one value between optional white space;
    [None] stands for [JSONDecodeError]. The limits of the interpreter
    (recursion depth, digits of an integer) are not part of the model. *)
Definition json_loads (s : pystr) : option pyobj :=
  match strip_prefix [65279] s with
  | Some _ => None
  | None =>
    match scan_once (S (length s)) (skip_ws s) with
    | Parsed obj rest =>
      match skip_ws rest with
      | [] => Some obj
      | _ :: _ => None
      end
    | Failed => None
    | OutOfFuel => None
    end
  end.

End Json.
Import Json.

(** ** Paths of [pathlib] (POSIX flavour) *)

Module Path.

Record t : Type := { root : pystr; parts : list pystr }.

(** [posixpath.join(a, b)] *)
Definition posix_join (a b : pystr) : pystr :=
  match b with
  | c :: _ => if c =? 47 then b else a ++ [47] ++ b
  | [] => a ++ [47]
  end.

(** [posixpath.splitroot]: one slash, or two when the text starts with
    exactly two. *)
Definition parse_root (s : pystr) : pystr :=
  match s with
  | a :: r =>
    if a =? 47 then
      match r with
      | b :: r' =>
        if b =? 47 then
          match r' with
          | c :: _ => if c =? 47 then [47] else [47; 47]
          | [] => [47; 47]
          end
        else [47]
      | [] => [47]
      end
    else []
  | [] => []
  end.

Definition is_part (p : pystr) : bool := negb (eqb p []) && negb (eqb p [46]).

Definition of_str (s : pystr) : t :=
  {| root := parse_root s; parts := List.filter is_part (split 47 s) |}.

(** [str(path)] *)
Definition to_str (p : t) : pystr :=
  match root p, parts p with
  | [], [] => [46]
  | r, ps => r ++ join [47] ps
  end.

(** [path.name]: the final component. *)
Definition name (p : t) : pystr := List.last (parts p) [].

(** [path.suffix]: what follows the last dot of the name, the dot
    included, unless that dot is the first or the last character. *)
Definition suffix (p : t) : pystr :=
  let nm := name p in
  match rfind 46 nm with
  | Some i =>
    if (0 <? i)%nat && (i <? length nm - 1)%nat then drop i nm else []
  | None => []
  end.

End Path.

(** [UPLOAD_FOLDER / filename] *)
Definition UPLOAD_FOLDER : pystr := u8 "uploads".

Definition upload_path (filename : pystr) : Path.t :=
  Path.of_str (Path.posix_join UPLOAD_FOLDER filename).

(** ** The request *)

Definition bytes := list Byte.byte.

(** A Werkzeug [FileStorage]: the name sent by the client and the
    contents. *)
Record FileStorage : Type := { filename : pystr; stream : bytes }.

(** A Werkzeug [MultiDict], in the order of the form parts. *)
Module MultiDict.
Section Ops.
Context {V : Type}.

Fixpoint get (d : list (pystr * V)) (key : pystr) : option V :=
    match d with
    | [] => None
    | (k, v) :: r => if eqb k key then Some v else get r key
    end.

Fixpoint getlist (d : list (pystr * V)) (key : pystr) : list V :=
    match d with
    | [] => []
    | (k, v) :: r => if eqb k key then v :: getlist r key else getlist r key
    end.

Definition contains (d : list (pystr * V)) (key : pystr) : bool :=
    existsb (fun kv => eqb (fst kv) key) d.
End Ops.
End MultiDict.

Record request : Type := {
  form : list (pystr * pystr);
  files : list (pystr * FileStorage)
}.

Record response : Type := { body : pyobj; status : Z }.

(** [jsonify(obj), code] *)
Definition jsonify (obj : pyobj) (code : Z) : response :=
  {| body := obj; status := code |}.

(** The dict literal [{"valid": False, "reasons": [reason]}]. *)
Definition error_verdict (reason : pystr) : pyobj :=
  PyDict [(u8 "valid", PyBool false); (u8 "reasons", PyList [PyStr reason])].

(** ** Exceptions and the libraries *)

Inductive exn : Type :=
| ValueError (literal : pystr)
| OverflowError
| TypeError (msg : pystr)
| LibraryError (msg : pystr).

(** Result of a library call: a value, or an exception with its text. *)
Inductive call (A : Type) : Type :=
| Returns (a : A)
| Raises (msg : pystr).
Arguments Returns {A} a.
Arguments Raises {A} msg.

(** The library calls and database look-ups of the program:
    - [unicode_decimal]: decimal value of a digit outside ASCII, from the
      Unicode database;
    - [py_repr]: [repr] of a [str];
    - [float_str]: [str] of a float, given the quotient it rounds;
    - [save_error]: for [FileStorage.save(dst)], the text of the exception
      when the write fails;
    - [fitz_pages]: [fitz.open(path)] and [page.get_text()] of each page,
      given the contents stored at [path], if any;
    - [docx_paragraphs]: [docx.Document(path)] and [p.text] of each
      paragraph;
    - [chat]: [chat(...).message.content] for a prompt. *)
Record libs : Type := {
  unicode_decimal : N -> option Z;
  py_repr : pystr -> pystr;
  float_str : Q -> pystr;
  save_error : pystr -> bytes -> option pystr;
  fitz_pages : pystr -> option bytes -> call (list pystr);
  docx_paragraphs : pystr -> option bytes -> call (list pystr);
  chat : pystr -> call pystr
}.

(** [str(e)] *)
Definition exn_str (E : libs) (e : exn) : pystr :=
  match e with
  | ValueError literal =>
    u8 "invalid literal for int() with base 10: " ++ py_repr E literal
  | OverflowError => u8 "integer division result too large for a float"
  | TypeError msg => msg
  | LibraryError msg => msg
  end.

(** ** State and control *)

Inductive event : Type :=
| Saved (path : pystr)
| Opened (path : pystr)
| Unlinked (path : pystr)
| Chatted (prompt : pystr).

(** The upload directory and the log of the effects performed so far. *)
Record world : Type := {
  storage : gmap pystr bytes;
  trace : list event
}.

Inductive result (A : Type) : Type :=
| Value (a : A)
| Raise (e : exn)
| Return (r : response).
Arguments Value {A} a.
Arguments Raise {A} e.
Arguments Return {A} r.

Definition M (A : Type) : Type := world -> result A * world.

Definition ret {A} (a : A) : M A := fun w => (Value a, w).

Definition bind {A B} (m : M A) (k : A -> M B) : M B :=
  fun w =>
    match m w with
    | (Value a, w') => k a w'
    | (Raise e, w') => (Raise e, w')
    | (Return r, w') => (Return r, w')
    end.

Definition raise {A} (e : exn) : M A := fun w => (Raise e, w).

(** A [return] statement of the handler. *)
Definition return_ {A} (r : response) : M A := fun w => (Return r, w).

(** [try: body except Exception as e: handler] *)
Definition try_except {A} (body : M A) (handler : exn -> M A) : M A :=
  fun w =>
    match body w with
    | (Raise e, w') => handler e w'
    | other => other
    end.

Definition log (ev : event) : M unit :=
  fun w => (Value tt, {| storage := storage w; trace := trace w ++ [ev] |}).

Declare Scope py_scope.
Delimit Scope py_scope with py.
Notation "'let*' x ':=' m 'in' k" := (bind m (fun x => k))
  (at level 10, x name, m at level 100, k at level 200) : py_scope.
Notation "m ';;' k" := (bind m (fun _ => k))
  (at level 100, k at level 200, right associativity) : py_scope.
Open Scope py_scope.

Section Program.
Variable E : libs.

  (** *** File operations *)

  (** [f.save(str(path))] *)
Definition save (f : FileStorage) (path : Path.t) : M unit :=
    fun w =>
      let dst := Path.to_str path in
      match save_error E dst (stream f) with
      | Some msg => (Raise (LibraryError msg), w)
      | None =>
        (Value tt, {| storage := <[dst := stream f]> (storage w);
                      trace := trace w ++ [Saved dst] |})
      end.

  (** [path.unlink(missing_ok=True)] *)
Definition unlink (path : Path.t) : M unit :=
    fun w =>
      let p := Path.to_str path in
      (Value tt, {| storage := delete p (storage w);
                    trace := trace w ++ [Unlinked p] |}).

  (** A library reader applied to the file stored at [path]. *)
Definition open_with (reader : pystr -> option bytes -> call (list pystr))
             (path : Path.t) : M (list pystr) :=
    fun w =>
      let p := Path.to_str path in
      let w' := {| storage := storage w; trace := trace w ++ [Opened p] |} in
      match reader p (storage w !! p) with
      | Returns l => (Value l, w')
      | Raises msg => (Raise (LibraryError msg), w')
      end.

  (** *** [extract_text] *)

Definition extract_text (file_path : Path.t) : M (option pystr) :=
    let suffix := lower (Path.suffix file_path) in
    if eqb suffix (u8 ".pdf") then
      let* pdf := open_with (fitz_pages E) file_path in
      ret (Some (fold_left (fun text page => text ++ page) pdf []))
    else if eqb suffix (u8 ".docx") then
      let* paragraphs := open_with (docx_paragraphs E) file_path in
      ret (Some (join [10] paragraphs))
    else ret None.

  (** *** [validate_text] *)

Inductive field : Type :=
  | F_requirements | F_valid_block | F_invalid_block
  | F_document_text | F_precent.

Inductive piece : Type :=
  | Lit (s : pystr)
  | Hole (f : field).

  (** The f-string of [validate_text]: its literal text and its
      replacement fields, in order. *)
Definition prompt_template : list piece :=
    [ Lit (u8 "
You are an expert document validator that only responds in arabic.

The user supplied:
1. Validation requirements (mandatory)
2. Optional examples of valid documents
3. Optional examples of invalid documents

Your task is to evaluate the document denoted by " ++ dq ++ u8 " at the start and end leniently:
- Consider a requirement satisfied if it is mostly present.
- Only mark it missing if it is completely absent or clearly incorrect.
- If its missing give it a 0.
- Minor deviations, paraphrasing, or partial content are acceptable.

==================================================
📝 VALIDATION REQUIREMENTS
==================================================
");
    Hole F_requirements;
    Lit (u8 "

==================================================
🟢 VALID EXAMPLES (optional)
==================================================
");
    Hole F_valid_block;
    Lit (u8 "

==================================================
🔴 INVALID EXAMPLES (optional)
==================================================
");
    Hole F_invalid_block;
    Lit (u8 "

==================================================
📄 DOCUMENT TO VALIDATE
==================================================
" ++ dq);
    Hole F_document_text;
    Lit (dq ++ u8 "

==================================================
🎯 VALIDATION RULES
==================================================
• Compare the document strictly against the user's requirements.
• Score each requirement:
  - 1 point = clearly satisfied.
  - 0 = missing or unclear.

• Final decision:
 - Score each requirement between 0 (missing) and 1 (fully satisfied)
 - Compute overall score = average of all requirement scores
 - Mark document as " ++ dq ++ u8 "valid" ++ dq ++ u8 " if overall score >= ");
    Hole F_precent;
    Lit (u8 "
 - Include reasons explaining any missing or partially satisfied requirements
Output format (strict JSON):
{
  " ++ dq ++ u8 "valid" ++ dq ++ u8 ": true/false,
  " ++ dq ++ u8 "reasons" ++ dq ++ u8 ": [" ++ dq ++ u8 "reason 1" ++ dq ++ u8 ", " ++ dq ++ u8 "reason 2" ++ dq ++ u8 ", ...]
}
If valid, include one reason that is just your score such as " ++ dq ++ u8 "الوثيقة صحيحة بنسبة **%" ++ dq ++ u8 "
") ].

  (** [format(v, "")] for the value of [document_text]: a [str], or
      [None]. *)
Definition format_optional (v : option pystr) : pystr :=
    match v with
    | Some s => s
    | None => u8 "None"
    end.

Definition render_piece (requirements valid_block invalid_block : pystr)
             (document_text : option pystr) (precent : Q) (p : piece) : pystr :=
    match p with
    | Lit s => s
    | Hole F_requirements => requirements
    | Hole F_valid_block => valid_block
    | Hole F_invalid_block => invalid_block
    | Hole F_document_text => format_optional document_text
    | Hole F_precent => float_str E precent
    end.

Definition no_valid_examples : pystr := u8 "لا توجد أمثلة صالحة.".
Definition no_invalid_examples : pystr := u8 "لا توجد أمثلة غير صالحة.".

  (** The value of [prompt] in [validate_text]. *)
Definition build_prompt (requirements valid_examples invalid_examples : pystr)
             (document_text : option pystr) (precent : Q) : pystr :=
    let valid_block := or_else valid_examples no_valid_examples in
    let invalid_block := or_else invalid_examples no_invalid_examples in
    concat (List.map (render_piece requirements valid_block invalid_block
                                   document_text precent) prompt_template).

Definition fallback_verdict : pyobj :=
    error_verdict (u8 "Invalid JSON returned from model").

  (** The [try: return json.loads(content) except Exception: ...] block. *)
Definition parse_reply (content : pystr) : pyobj :=
    match json_loads content with
    | Some v => v
    | None => fallback_verdict
    end.

Definition chat_call (prompt : pystr) : M pystr :=
    fun w =>
      let w' := {| storage := storage w; trace := trace w ++ [Chatted prompt] |} in
      match chat E prompt with
      | Returns content => (Value content, w')
      | Raises msg => (Raise (LibraryError msg), w')
      end.

Definition validate_text (requirements valid_examples invalid_examples : pystr)
             (document_text : option pystr) (precent : Q) : M pyobj :=
    let prompt := build_prompt requirements valid_examples invalid_examples
                               document_text precent in
    let* content := chat_call prompt in
    ret (parse_reply content).

  (** *** [validate] *)

Definition msg_no_requirements : pystr := u8 "لم يتم إدخال متطلبات التحقق.".
Definition msg_no_document : pystr := u8 "لم يتم رفع المستند المراد التحقق منه.".
Definition msg_valid_example : pystr := u8 "خطأ أثناء معالجة مثال صحيح: ".
Definition msg_invalid_example : pystr := u8 "خطأ أثناء معالجة مثال غير صحيح: ".
Definition msg_document : pystr := u8 "تعذر قراءة المستند: ".

Definition separator : pystr := u8 "

---

".

  (** [extract_text(path) + separator]: [None + str] raises. *)
Definition add_separator (text : option pystr) : M pystr :=
    match text with
    | Some s => ret (s ++ separator)
    | None =>
      raise (TypeError (u8 "unsupported operand type(s) for +: 'NoneType' and 'str'"))
    end.

  (** The body of [for f in request.files.getlist(...)], for both example
      sets; [msg] is the text of the error reason of the set and
      [examples_text] the text accumulated so far. *)
Fixpoint examples_loop (msg : pystr) (l : list FileStorage)
           (examples_text : pystr) : M pystr :=
    match l with
    | [] => ret examples_text
    | f :: rest =>
      if eqb (filename f) [] then examples_loop msg rest examples_text
      else
        let* examples_text' :=
          try_except
            (let path := upload_path (filename f) in
             save f path;;
             let* text := extract_text path in
             let* added := add_separator text in
             unlink path;;
             ret (examples_text ++ added))
            (fun e =>
               return_ (jsonify (error_verdict (msg ++ exn_str E e)) 500)) in
        examples_loop msg rest examples_text'
    end.

  (** [if key in request.files: for f in request.files.getlist(key): ...] *)
Definition examples (key msg : pystr) (req : request) : M pystr :=
    if MultiDict.contains (files req) key
    then examples_loop msg (MultiDict.getlist (files req) key) []
    else ret [].

  (** [int(precent) / 100] *)
Definition threshold (precent : pystr) : M Q :=
    match py_int (unicode_decimal E) precent with
    | None => raise (ValueError precent)
    | Some n =>
      match truediv_100 n with
      | None => raise OverflowError
      | Some q => ret q
      end
    end.

  (** A [FileStorage] is falsy when its file name is empty. *)
Definition present (f : option FileStorage) : option FileStorage :=
    match f with
    | Some f' => if eqb (filename f') [] then None else Some f'
    | None => None
    end.

Definition validate (req : request) : M response :=
    let requirements :=
      strip (default [] (MultiDict.get (form req) (u8 "requirements"))) in
    if eqb requirements [] then
      return_ (jsonify (error_verdict msg_no_requirements) 400)
    else
      match present (MultiDict.get (files req) (u8 "document")) with
      | None => return_ (jsonify (error_verdict msg_no_document) 400)
      | Some document_file =>
        let doc_path := upload_path (filename document_file) in
        save document_file doc_path;;
        let precent := default [] (MultiDict.get (form req) (u8 "precent")) in
        let* precent := threshold precent in
        let* valid_examples_text :=
          examples (u8 "valid_examples") msg_valid_example req in
        let* invalid_examples_text :=
          examples (u8 "invalid_examples") msg_invalid_example req in
        let* document_text :=
          try_except (extract_text doc_path)
            (fun e =>
               unlink doc_path;;
               return_ (jsonify (error_verdict (msg_document ++ exn_str E e)) 500)) in
        unlink doc_path;;
        let* result := validate_text requirements valid_examples_text
                                     invalid_examples_text document_text
                                     precent in
        return_ (jsonify result 200)
      end.

  (** What the client of one request observes. *)
Inductive outcome : Type :=
  | Responded (r : response)
  | Uncaught (e : exn).

Definition handle (req : request) (w : world) : outcome * world :=
    match validate req w with
    | (Value r, w') => (Responded r, w')
    | (Return r, w') => (Responded r, w')
    | (Raise e, w') => (Uncaught e, w')
    end.

End Program.

(** ** Observations on a run *)

(** The prompts sent to the model, in order. *)
Definition prompts (w : world) : list pystr :=
  omap (fun ev => match ev with Chatted p => Some p | _ => None end) (trace w).

(** What one pass over an example set can end with: the accumulated text,
    or the 500 response of its [except] block. No exception leaves the
    loop, and no prompt is sent. *)
Inductive examples_end (msg : pystr) (w : world)
  : result pystr * world -> Prop :=
| examples_text (text : pystr) (w' : world) :
    prompts w' = prompts w ->
    examples_end msg w (Value text, w')
| examples_failed (reason : pystr) (w' : world) :
    prompts w' = prompts w ->
    examples_end msg w
      (Return (jsonify (error_verdict (msg ++ reason)) 500), w').

(** [ValidOrNot]: a dict with a boolean [valid] and a list of strings
    [reasons]. *)
Definition is_str (v : pyobj) : bool :=
  match v with PyStr _ => true | _ => false end.

Definition matches_schema (v : pyobj) : bool :=
  match v with
  | PyDict d =>
    match dict_get (u8 "valid") d, dict_get (u8 "reasons") d with
    | Some (PyBool _), Some (PyList l) => forallb is_str l
    | _, _ => false
    end
  | _ => false
  end.

(** ** The files a request stages *)

(** An entry with a file name, the ones the example loops do not skip. *)
Definition named (f : FileStorage) : bool := negb (eqb (filename f) []).

(** [str(UPLOAD_FOLDER / f.filename)], where [f] is staged. *)
Definition staged_path (f : FileStorage) : pystr :=
  Path.to_str (upload_path (filename f)).




(** The named entries of an example set, in the order of the form. *)
Definition example_files (req : request) (key : pystr) : list FileStorage :=
  List.filter named (MultiDict.getlist (files req) key).

(** The paths a request can write or delete. *)
Definition staged_paths (req : request) : list pystr :=
  match present (MultiDict.get (files req) (u8 "document")) with
  | Some document_file => [staged_path document_file]
  | None => []
  end
  ++ List.map staged_path (example_files req (u8 "valid_examples"))
  ++ List.map staged_path (example_files req (u8 "invalid_examples")).

(** The files at the paths outside [paths] are the same in [w'] as in
    [w]. *)
Definition untouched (paths : list pystr) (w w' : world) : Prop :=
  forall p, p ∉ paths -> storage w' !! p = storage w !! p.


(** How one pass over an example set can end, with what it leaves of the
    upload directory: only the paths of its named entries can differ. *)
Inductive examples_exit (msg : pystr) (paths : list pystr) (w : world)
  : result pystr * world -> Prop :=
| examples_exit_text (text : pystr) (w' : world) :
    prompts w' = prompts w -> untouched paths w w' ->
    examples_exit msg paths w (Value text, w')
| examples_exit_failed (reason : pystr) (w' : world) :
    prompts w' = prompts w -> untouched paths w w' ->
    examples_exit msg paths w
      (Return (jsonify (error_verdict (msg ++ reason)) 500), w').

(** The exits of the handler. [raw] is the requirements field, [doc] the
    document part; each exit records the response or the exception, that
    only staged paths of the request can differ in the upload directory,
    and which prompts were sent. *)
Inductive handled (E : libs) (req : request) (w : world)
  : outcome * world -> Prop :=
| handled_no_requirements :
    strip (default [] (MultiDict.get (form req) (u8 "requirements"))) = [] ->
    handled E req w
      (Responded (jsonify (error_verdict msg_no_requirements) 400), w)
| handled_no_document :
    present (MultiDict.get (files req) (u8 "document")) = None ->
    handled E req w
      (Responded (jsonify (error_verdict msg_no_document) 400), w)
| handled_save_failed (doc : FileStorage) (msg : pystr) :
    present (MultiDict.get (files req) (u8 "document")) = Some doc ->
    save_error E (staged_path doc) (stream doc) = Some msg ->
    handled E req w (Uncaught (LibraryError msg), w)
| handled_percentage (doc : FileStorage) (e : exn) :
    present (MultiDict.get (files req) (u8 "document")) = Some doc ->
    threshold E (default [] (MultiDict.get (form req) (u8 "precent")))
      {| storage := <[staged_path doc := stream doc]> (storage w);
         trace := trace w ++ [Saved (staged_path doc)] |}
    = (Raise e,
       {| storage := <[staged_path doc := stream doc]> (storage w);
          trace := trace w ++ [Saved (staged_path doc)] |}) ->
    handled E req w
      (Uncaught e,
       {| storage := <[staged_path doc := stream doc]> (storage w);
          trace := trace w ++ [Saved (staged_path doc)] |})
| handled_example_failed (msg reason : pystr) (w' : world) :
    msg = msg_valid_example \/ msg = msg_invalid_example ->
    prompts w' = prompts w ->
    untouched (staged_paths req) w w' ->
    handled E req w
      (Responded (jsonify (error_verdict (msg ++ reason)) 500), w')
| handled_document_failed (doc : FileStorage) (e : exn) (w' : world) :
    present (MultiDict.get (files req) (u8 "document")) = Some doc ->
    prompts w' = prompts w ->
    untouched (staged_paths req) w w' ->
    storage w' !! staged_path doc = None ->
    handled E req w
      (Responded (jsonify (error_verdict (msg_document ++ exn_str E e)) 500), w')
| handled_model_failed (doc : FileStorage) (prompt msg : pystr) (w' : world) :
    present (MultiDict.get (files req) (u8 "document")) = Some doc ->
    chat E prompt = Raises msg ->
    prompts w' = prompts w ++ [prompt] ->
    untouched (staged_paths req) w w' ->
    storage w' !! staged_path doc = None ->
    handled E req w (Uncaught (LibraryError msg), w')
| handled_verdict (doc : FileStorage) (prompt content : pystr) (w' : world) :
    present (MultiDict.get (files req) (u8 "document")) = Some doc ->
    chat E prompt = Returns content ->
    prompts w' = prompts w ++ [prompt] ->
    untouched (staged_paths req) w w' ->
    storage w' !! staged_path doc = None ->
    handled E req w (Responded (jsonify (parse_reply content) 200), w').





(** ** A concrete environment, for the examples *)

Module Demo.

Definition digits_of (n : N) : pystr :=
  u8 (NilZero.string_of_uint (N.to_uint n)).

(** [str] of the float nearest to a quotient in hundredths of moderate
    size: the decimal expansion, with one or two digits after the dot. *)
Definition hundredths_str (q : Q) : pystr :=
  let h := (Qnum q * 100 / Z.pos (Qden q))%Z in
  let a := Z.to_N (Z.abs h) in
  (if (h <? 0)%Z then [45] else [])
    ++ digits_of (a / 100) ++ [46]
    ++ (if a mod 10 =? 0 then digits_of (a mod 100 / 10)
        else digits_of (a mod 100 / 10) ++ digits_of (a mod 10)).

Definition text_of (content : bytes) : pystr := List.map Byte.to_N content.

(** Every write succeeds; a stored PDF has one page holding its bytes as
    text; a stored DOCX has one paragraph per line; the model answers
    [reply] to every prompt. *)
Definition libs_with (reply : call pystr) : libs := {|
  unicode_decimal := fun _ => None;
  py_repr := fun s => [39] ++ s ++ [39];
  float_str := hundredths_str;
  save_error := fun _ _ => None;
  fitz_pages := fun path content =>
    match content with
    | Some b => Returns [text_of b]
    | None => Raises (u8 "no such file: '" ++ path ++ u8 "'")
    end;
  docx_paragraphs := fun path content =>
    match content with
    | Some b => Returns (split 10 (text_of b))
    | None => Raises (u8 "Package not found at '" ++ path ++ u8 "'")
    end;
  chat := fun _ => reply
|}.

Definition file (name content : string) : FileStorage :=
  {| filename := u8 name; stream := list_byte_of_string content |}.

Definition requirements_text : pystr :=
  u8 "Must include a signature and a date.".

Definition post (precent : list (pystr * pystr))
           (uploads : list (pystr * FileStorage)) : request :=
  {| form := (u8 "requirements", requirements_text) :: precent;
     files := uploads |}.

Definition percent (s : string) : list (pystr * pystr) :=
  [(u8 "precent", u8 s)].

Definition empty_world : world := {| storage := ∅; trace := [] |}.

(** An upload directory holding one file, and an empty log. *)
Definition stored (path content : string) : world :=
  {| storage := {[ u8 path := list_byte_of_string content ]}; trace := [] |}.

(** The reply of the model in the scenario of a missing signature. *)
Definition verdict_reply : pystr :=
  u8 "{" ++ dq ++ u8 "valid" ++ dq ++ u8 ": false, "
     ++ dq ++ u8 "reasons" ++ dq ++ u8 ": ["
     ++ dq ++ u8 "Missing signature section" ++ dq ++ u8 "]}".

Definition verdict_value : pyobj :=
  PyDict [(u8 "valid", PyBool false);
          (u8 "reasons", PyList [PyStr (u8 "Missing signature section")])].


Definition slashes (path : pystr) : nat := length (List.filter (N.eqb 47) path).

(** An environment in which things can fail: a write below a directory
    that does not exist fails, and the libraries cannot read an empty
    file. *)
Definition faulty_libs (reply : call pystr) : libs := {|
  unicode_decimal := fun _ => None;
  py_repr := fun s => [39] ++ s ++ [39];
  float_str := hundredths_str;
  save_error := fun path _ =>
    if (1 <? slashes path)%nat
    then Some (u8 "[Errno 2] No such file or directory: '" ++ path ++ u8 "'")
    else None;
  fitz_pages := fun path content =>
    match content with
    | Some [] => Raises (u8 "Cannot open empty file: '" ++ path ++ u8 "'")
    | Some b => Returns [text_of b]
    | None => Raises (u8 "no such file: '" ++ path ++ u8 "'")
    end;
  docx_paragraphs := fun path content =>
    match content with
    | Some [] => Raises (u8 "File is not a zip file")
    | Some b => Returns (split 10 (text_of b))
    | None => Raises (u8 "Package not found at '" ++ path ++ u8 "'")
    end;
  chat := fun _ => reply
|}.

End Demo.

(** * Properties *)

Example utf8_sample : u8 "é • 📝" = [233; 32; 8226; 32; 128221].
Proof. reflexivity. Qed.

Example strip_sample : strip (u8 "  a b
 ") = u8 "a b".
Proof. reflexivity. Qed.

Example py_int_samples :
  py_int (fun _ => None) (u8 " 70 ") = Some 70%Z
  /\ py_int (fun _ => None) (u8 "-1_0") = Some (-10)%Z
  /\ py_int (fun _ => None) (u8 "") = None
  /\ py_int (fun _ => None) (u8 "abc") = None
  /\ py_int (fun _ => None) (u8 "1__0") = None
  /\ py_int (fun _ => None) (u8 "7_") = None
  /\ py_int (fun _ => None) (u8 "+ 7") = None.
Proof. repeat split; reflexivity. Qed.

Example json_loads_samples :
  json_loads (u8 "[]") = Some (PyList [])
  /\ json_loads (u8 " [1, -2.5e3, null, true] ")
     = Some (PyList [PyInt 1; PyFloat (u8 "-2.5e3"); PyNone; PyBool true])
  /\ json_loads (u8 "{" ++ dq ++ u8 "a" ++ dq ++ u8 ": [[]], "
                 ++ dq ++ u8 "bé\n" ++ dq ++ u8 " :{} }")
     = Some (PyDict [(u8 "a", PyList [PyList []]); ([98; 233; 10], PyDict [])])
  /\ json_loads (u8 "[1,]") = None
  /\ json_loads (u8 "01") = None
  /\ json_loads (u8 "") = None
  /\ json_loads (u8 "valid") = None
  /\ json_loads (u8 "{} x") = None
  /\ json_loads (dq ++ u8 "📝" ++ dq) = Some (PyStr [128221])
  /\ json_loads (dq ++ u8 "\ud83dA" ++ dq) = Some (PyStr [55357; 65])
  /\ json_loads (u8 "-Infinity") = Some (PyFloat (u8 "-Infinity"))
  /\ json_loads (u8 "1.") = None
  /\ json_loads (u8 "1e5") = Some (PyFloat (u8 "1e5")).
Proof. repeat split; vm_compute; reflexivity. Qed.



(** ** The decoder terminates within its budget *)












Section ScannerFacts.
Variable scan : pystr -> parse pyobj.
Variable bound : nat.
Hypothesis scan_total :
  forall s, (length s < bound)%nat -> scan s <> OutOfFuel.
Hypothesis scan_shorter :
  forall s v rest, scan s = Parsed v rest -> (length rest < length s)%nat.








End ScannerFacts.






Example demo_float_str :
  Demo.hundredths_str (7 # 10) = u8 "0.7" /\ Demo.hundredths_str (3 # 2) = u8 "1.5"
  /\ Demo.hundredths_str 1 = u8 "1.0" /\ Demo.hundredths_str (-1 # 20) = u8 "-0.05"
  /\ Demo.hundredths_str 0 = u8 "0.0".
Proof. repeat split; vm_compute; reflexivity. Qed.

Example demo_verdict_reply :
  json_loads Demo.verdict_reply = Some Demo.verdict_value
  /\ matches_schema Demo.verdict_value = true.
Proof. split; vm_compute; reflexivity. Qed.

(** The scenario of the missing signature: the verdict of the model is
    returned unchanged with status 200, and nothing stays in the upload
    directory. *)
Example scenario_missing_signature :
  handle (Demo.libs_with (Returns Demo.verdict_reply))
         (Demo.post (Demo.percent "70")
                    [(u8 "document", Demo.file "contract.pdf" "Dated 2024-01-01")])
         Demo.empty_world
  = (Responded {| body := Demo.verdict_value; status := 200 |},
     {| storage := ∅;
        trace := [Saved (u8 "uploads/contract.pdf");
                  Opened (u8 "uploads/contract.pdf");
                  Unlinked (u8 "uploads/contract.pdf");
                  Chatted (build_prompt (Demo.libs_with (Returns Demo.verdict_reply))
                             Demo.requirements_text [] []
                             (Some (u8 "Dated 2024-01-01")) (7 # 10)) ] |}).
Proof. vm_compute. reflexivity. Qed.

(** ** C1: decoding the reply of the model *)




Example fallback_on_prose :
  parse_reply (u8 "Sure! The document is fine.") = fallback_verdict.
Proof. vm_compute. reflexivity. Qed.

(** ** C2: staged files after an example fails *)

(** C2 at a failing input: the valid example [notes.txt] is in an
    unsupported format, the request ends with status 500, and both the
    primary document and the example are still in the upload directory. *)
Theorem C2_example_error_leaves_files :
  let E := Demo.libs_with (Returns Demo.verdict_reply) in
  let req := Demo.post (Demo.percent "70")
               [(u8 "document", Demo.file "contract.pdf" "Dated 2024-01-01");
                (u8 "valid_examples", Demo.file "notes.txt" "sample")] in
  exists reason w',
    handle E req Demo.empty_world
    = (Responded (jsonify (error_verdict (msg_valid_example ++ reason)) 500), w')
    /\ storage w' !! u8 "uploads/contract.pdf"
       = Some (list_byte_of_string "Dated 2024-01-01")
    /\ storage w' !! u8 "uploads/notes.txt"
       = Some (list_byte_of_string "sample")
    /\ trace w' = [Saved (u8 "uploads/contract.pdf");
                   Saved (u8 "uploads/notes.txt")].
Proof.
  cbv zeta.
  exists (u8 "unsupported operand type(s) for +: 'NoneType' and 'str'").
  eexists. split; [vm_compute; reflexivity|].
  repeat split; vm_compute; reflexivity.
Qed.

(** ** C3: a primary document in an unsupported format *)

(** C3 at a failing input: the primary document [contract.txt] is in an
    unsupported format; the staged file is deleted, but no error is
    surfaced: the model is prompted with the text [None] as the document
    and its verdict is returned with status 200. *)
Theorem C3_unsupported_document_is_prompted :
  let E := Demo.libs_with (Returns Demo.verdict_reply) in
  let req := Demo.post (Demo.percent "70")
               [(u8 "document", Demo.file "contract.txt" "Dated 2024-01-01")] in
  handle E req Demo.empty_world
  = (Responded {| body := Demo.verdict_value; status := 200 |},
     {| storage := ∅;
        trace := [Saved (u8 "uploads/contract.txt");
                  Unlinked (u8 "uploads/contract.txt");
                  Chatted (build_prompt E Demo.requirements_text [] []
                                        None (7 # 10))] |})
  /\ extract_text E (upload_path (u8 "contract.txt"))
       {| storage := {[ u8 "uploads/contract.txt"
                        := list_byte_of_string "Dated 2024-01-01" ]};
          trace := [] |}
     = (Value None,
        {| storage := {[ u8 "uploads/contract.txt"
                         := list_byte_of_string "Dated 2024-01-01" ]};
           trace := [] |}).
Proof. cbv zeta. split; vm_compute; reflexivity. Qed.

(** ** C7: text extraction *)

Lemma fold_left_app_concat (pages : list pystr) (text : pystr) :
  fold_left (fun text page => text ++ page) pages text = text ++ concat pages.
Proof.
  revert text; induction pages as [|p ps IH]; intros text; simpl.
  - by rewrite app_nil_r.
  - by rewrite IH, app_assoc.
Qed.

Lemma split_app_sep (sep : N) (x rest : pystr) :
  sep ∉ x ->
  split sep (x ++ sep :: rest) = x :: split sep rest.
Proof.
  induction x as [|c x IH]; intros Hx; simpl.
  - by rewrite N.eqb_refl.
  - apply not_elem_of_cons in Hx as [Hc Hx].
    destruct (c =? sep) eqn:Hcs; [apply N.eqb_eq in Hcs; congruence|].
    by rewrite (IH Hx).
Qed.

Lemma split_no_sep (sep : N) (x : pystr) : sep ∉ x -> split sep x = [x].
Proof.
  induction x as [|c x IH]; intros Hx; simpl; [done|].
  apply not_elem_of_cons in Hx as [Hc Hx].
  destruct (c =? sep) eqn:Hcs; [apply N.eqb_eq in Hcs; congruence|].
  by rewrite (IH Hx).
Qed.

(** Joining with a separator that occurs in no item loses nothing: the
    items and their order are recovered by splitting. *)
Lemma split_join (sep : N) (l : list pystr) :
  l <> [] -> Forall (fun x => sep ∉ x) l -> split sep (join [sep] l) = l.
Proof.
  induction l as [|x l IH]; intros Hne Hall; [done|].
  apply Forall_cons in Hall as [Hx Hall].
  destruct l as [|y l].
  - simpl. by apply split_no_sep.
  - change (join [sep] (x :: y :: l)) with (x ++ sep :: join [sep] (y :: l)).
    rewrite split_app_sep by done. f_equal. by apply IH.
Qed.

(** C7: [extract_text] returns, for a [.pdf] path, the texts of the pages
    concatenated in page order; for a [.docx] path, the paragraph texts
    joined by line feeds in their order (when no paragraph holds a line
    feed, splitting the result at line feeds gives the paragraphs back);
    for any other path, the marker [None], which is not a text, without
    opening the file. An exception of the library is raised to the caller,
    not turned into a text. The suffix is compared without regard to
    case. *)
Theorem C7_extract_text (E : libs) (file_path : Path.t) (w : world) :
  let p := Path.to_str file_path in
  let suffix := lower (Path.suffix file_path) in
  let opened := {| storage := storage w; trace := trace w ++ [Opened p] |} in
  (suffix = u8 ".pdf" ->
   (forall pages, fitz_pages E p (storage w !! p) = Returns pages ->
      extract_text E file_path w = (Value (Some (concat pages)), opened))
   /\ (forall msg, fitz_pages E p (storage w !! p) = Raises msg ->
      extract_text E file_path w = (Raise (LibraryError msg), opened)))
  /\ (suffix = u8 ".docx" ->
   (forall paragraphs,
      docx_paragraphs E p (storage w !! p) = Returns paragraphs ->
      extract_text E file_path w = (Value (Some (join [10] paragraphs)), opened)
      /\ (paragraphs <> [] -> Forall (fun t => 10 ∉ t) paragraphs ->
          split 10 (join [10] paragraphs) = paragraphs))
   /\ (forall msg, docx_paragraphs E p (storage w !! p) = Raises msg ->
      extract_text E file_path w = (Raise (LibraryError msg), opened)))
  /\ (suffix <> u8 ".pdf" -> suffix <> u8 ".docx" ->
      extract_text E file_path w = (Value None, w)).
Proof.
  cbv zeta. unfold extract_text, eqb.
  split; [|split].
  - intros ->. rewrite bool_decide_eq_true_2 by done.
    unfold bind, open_with, ret.
    split.
    + intros pages ->. by rewrite fold_left_app_concat.
    + by intros msg ->.
  - intros Hs. rewrite Hs.
    rewrite bool_decide_eq_false_2 by (vm_compute; discriminate).
    rewrite bool_decide_eq_true_2 by done.
    unfold bind, open_with, ret.
    split.
    + intros paragraphs ->. split; [done|]. apply split_join.
    + by intros msg ->.
  - intros H1 H2.
    by rewrite !bool_decide_eq_false_2.
Qed.

Lemma C7_extract_text_witness :
  let E := Demo.libs_with (Returns Demo.verdict_reply) in
  extract_text E (upload_path (u8 "Scan.PDF"))
               (Demo.stored "uploads/Scan.PDF" "page")
  = (Value (Some (u8 "page")),
     {| storage := {[ u8 "uploads/Scan.PDF" := list_byte_of_string "page" ]};
        trace := [Opened (u8 "uploads/Scan.PDF")] |})
  /\ extract_text E (upload_path (u8 "letter.docx"))
       (Demo.stored "uploads/letter.docx" "Dear Sir,
Regards")
     = (Value (Some (u8 "Dear Sir,
Regards")),
        {| storage := {[ u8 "uploads/letter.docx" := list_byte_of_string "Dear Sir,
Regards" ]};
           trace := [Opened (u8 "uploads/letter.docx")] |})
  /\ extract_text E (upload_path (u8 "notes.txt"))
                  (Demo.stored "uploads/notes.txt" "x")
     = (Value None, Demo.stored "uploads/notes.txt" "x").
Proof.
  cbv zeta. split; [|split].
  - destruct (C7_extract_text (Demo.libs_with (Returns Demo.verdict_reply))
                (upload_path (u8 "Scan.PDF"))
                (Demo.stored "uploads/Scan.PDF" "page")) as (Hpdf & _ & _).
    destruct Hpdf as [H _]; [vm_compute; reflexivity|].
    etransitivity; [apply (H [u8 "page"])|]; vm_compute; reflexivity.
  - destruct (C7_extract_text (Demo.libs_with (Returns Demo.verdict_reply))
                (upload_path (u8 "letter.docx"))
                (Demo.stored "uploads/letter.docx" "Dear Sir,
Regards")) as (_ & Hdocx & _).
    destruct Hdocx as [H _]; [vm_compute; reflexivity|].
    destruct (H [u8 "Dear Sir,"; u8 "Regards"]) as [Heq _];
      [vm_compute; reflexivity|].
    etransitivity; [apply Heq|]; vm_compute; reflexivity.
  - destruct (C7_extract_text (Demo.libs_with (Returns Demo.verdict_reply))
                (upload_path (u8 "notes.txt"))
                (Demo.stored "uploads/notes.txt" "x")) as (_ & _ & Hother).
    apply Hother; vm_compute; discriminate.
Defined.

(** ** C8: the prompt *)

(** C8: the prompt is six fixed texts with the five inputs between them:
    the requirements verbatim; each example text, or a fixed placeholder
    when that text is empty; the document text between two double quote
    characters; and the threshold, right after the words that make it the
    least score of a valid document. *)
Theorem C8_build_prompt :
  exists s0 s1 s2 s3 s4 s5 : pystr,
    (forall (E : libs) (requirements valid_examples invalid_examples : pystr)
            (document_text : option pystr) (precent : Q),
        build_prompt E requirements valid_examples invalid_examples
                     document_text precent
        = s0 ++ requirements
          ++ s1 ++ match valid_examples with
                   | [] => u8 "لا توجد أمثلة صالحة."
                   | _ :: _ => valid_examples
                   end
          ++ s2 ++ match invalid_examples with
                   | [] => u8 "لا توجد أمثلة غير صالحة."
                   | _ :: _ => invalid_examples
                   end
          ++ s3 ++ dq
          ++ match document_text with Some text => text | None => u8 "None" end
          ++ dq ++ s4 ++ u8 "overall score >= " ++ float_str E precent
          ++ s5)
    /\ (exists a, s0 = a ++ u8 "VALIDATION REQUIREMENTS
==================================================
")
    /\ (exists a, s3 = a ++ u8 "DOCUMENT TO VALIDATE
==================================================
").
Proof.
  pose (lit := fun k => match nth k prompt_template (Lit []) with
                        | Lit s => s
                        | Hole _ => []
                        end).
  pose (but_last := fun (n : nat) (l : pystr) => take (length l - n) l).
  exists (lit 0%nat), (lit 2%nat), (lit 4%nat),
         (but_last 1%nat (lit 6%nat)),
         (but_last 17%nat (tail (lit 8%nat))), (lit 10%nat).
  split; [|split].
  - intros E r v i d p. vm_compute. reflexivity.
  - exists (but_last 75%nat (lit 0%nat)). vm_compute. reflexivity.
  - exists (but_last 72%nat (but_last 1%nat (lit 6%nat))). vm_compute. reflexivity.
Qed.

(** ** C5: the threshold *)




(** ** The handler: shared facts *)

Lemma bind_ext {A B} (m m' : M A) (k k' : A -> M B) (w : world) :
  m w = m' w -> (forall a w', k a w' = k' a w') -> bind m k w = bind m' k' w.
Proof.
  intros Hm Hk. unfold bind. rewrite Hm.
  destruct (m' w) as [[a|e|r] w']; [apply Hk|done|done].
Qed.

Section HandlerFacts.
Variable E : libs.

Lemma prompts_log (w : world) (ev : event) :
  (forall p, ev <> Chatted p) ->
  prompts {| storage := storage w; trace := trace w ++ [ev] |} = prompts w.
Proof.
  intros Hev. unfold prompts. simpl. rewrite omap_app. simpl.
  destruct ev; try (by rewrite app_nil_r). by destruct (Hev prompt).
Qed.

Lemma prompts_update (w : world) (ev : event) (st : gmap pystr bytes) :
  (forall p, ev <> Chatted p) ->
  prompts {| storage := st; trace := trace w ++ [ev] |} = prompts w.
Proof. intros Hev. by rewrite <- (prompts_log w ev Hev). Qed.

Lemma extract_text_end (path : Path.t) (w : world) :
  exists w', prompts w' = prompts w
    /\ ((exists text, extract_text E path w = (Value text, w'))
        \/ (exists e, extract_text E path w = (Raise e, w'))).
Proof.
  unfold extract_text.
  destruct (eqb _ _).
  { unfold bind, open_with, ret.
    destruct (fitz_pages E _ _); eexists; (split; [|eauto]);
      by apply prompts_log. }
  destruct (eqb _ _).
  { unfold bind, open_with, ret.
    destruct (docx_paragraphs E _ _); eexists; (split; [|eauto]);
      by apply prompts_log. }
  exists w. split; [done|]. left. by eexists.
Qed.

Lemma examples_loop_end (msg : pystr) (l : list FileStorage) :
  forall text w, examples_end msg w (examples_loop E msg l text w).
Proof.
  induction l as [|f rest IH]; intros text w; simpl.
  - by constructor.
  - destruct (eqb (filename f) []); [apply IH|].
    unfold bind at 1. unfold try_except.
    unfold bind at 1. unfold save.
    destruct (save_error E _ _) as [err|].
    { unfold return_. by constructor. }
    set (w1 := {| storage := _; trace := _ |}).
    assert (Hw1 : prompts w1 = prompts w) by (by apply prompts_update).
    unfold bind at 1.
    destruct (extract_text_end (upload_path (filename f)) w1)
      as (w2 & Hw2 & [[t Ht]|[e He]]).
    2: { rewrite He. unfold return_. constructor. congruence. }
    rewrite Ht. destruct t as [t|]; simpl.
    2: { unfold bind, raise, return_. simpl. constructor. congruence. }
    unfold bind, ret, unlink. simpl.
    set (w3 := {| storage := _; trace := _ |}).
    assert (Hw3 : prompts w3 = prompts w).
    { unfold w3. rewrite prompts_update by done. congruence. }
    destruct (IH (text ++ t ++ separator) w3) as [t' w' H'|reason w' H'];
      constructor; congruence.
Qed.

Lemma examples_end_of (key msg : pystr) (req : request) (w : world) :
  examples_end msg w (examples E key msg req w).
Proof.
  unfold examples. destruct (MultiDict.contains _ _).
  - apply examples_loop_end.
  - by constructor.
Qed.

End HandlerFacts.

(** ** C6: requests rejected before any file is staged *)

(** C6: when the requirements are empty once stripped, or no document
    file with a name is attached, the handler answers with status 400 and
    a verdict whose reason names what is missing; the upload directory and
    the log of effects are unchanged, so nothing was staged and nothing
    was extracted. *)
Theorem C6_rejected_before_staging (E : libs) (req : request) (w : world) :
  let requirements :=
    strip (default [] (MultiDict.get (form req) (u8 "requirements"))) in
  requirements = []
  \/ present (MultiDict.get (files req) (u8 "document")) = None ->
  exists reason,
    handle E req w = (Responded (jsonify (error_verdict reason) 400), w)
    /\ (requirements = []
        -> reason = u8 "لم يتم إدخال متطلبات التحقق.")
    /\ (requirements <> []
        -> reason = u8 "لم يتم رفع المستند المراد التحقق منه.").
Proof.
  cbv zeta. intros H. unfold handle, validate, eqb.
  destruct (decide (strip (default [] (MultiDict.get (form req) (u8 "requirements"))) = []))
    as [Hempty|Hfull].
  - rewrite bool_decide_eq_true_2 by assumption.
    exists msg_no_requirements. unfold return_.
    split; [reflexivity|]. split; [reflexivity|contradiction].
  - rewrite bool_decide_eq_false_2 by assumption.
    destruct H as [H|H]; [contradiction|]. rewrite H.
    exists msg_no_document. unfold return_.
    split; [reflexivity|]. split; [contradiction|reflexivity].
Qed.

Lemma C6_rejected_before_staging_witness :
  exists reason,
    handle (Demo.libs_with (Returns Demo.verdict_reply))
           {| form := [(u8 "requirements", u8 "  "); (u8 "precent", u8 "70")];
              files := [(u8 "document", Demo.file "contract.pdf" "text")] |}
           (Demo.stored "uploads/other.pdf" "kept")
    = (Responded (jsonify (error_verdict reason) 400),
       Demo.stored "uploads/other.pdf" "kept")
    /\ (strip (default [] (MultiDict.get
                 [(u8 "requirements", u8 "  "); (u8 "precent", u8 "70")]
                 (u8 "requirements"))) = []
        -> reason = u8 "لم يتم إدخال متطلبات التحقق.")
    /\ (strip (default [] (MultiDict.get
                 [(u8 "requirements", u8 "  "); (u8 "precent", u8 "70")]
                 (u8 "requirements"))) <> []
        -> reason = u8 "لم يتم رفع المستند المراد التحقق منه.").
Proof.
  apply (C6_rejected_before_staging
           (Demo.libs_with (Returns Demo.verdict_reply))
           {| form := [(u8 "requirements", u8 "  "); (u8 "precent", u8 "70")];
              files := [(u8 "document", Demo.file "contract.pdf" "text")] |}).
  left. vm_compute. reflexivity.
Defined.

Example no_document_attached :
  handle (Demo.libs_with (Returns Demo.verdict_reply))
         (Demo.post (Demo.percent "70") [(u8 "document", Demo.file "" "")])
         Demo.empty_world
  = (Responded (jsonify (error_verdict msg_no_document) 400), Demo.empty_world).
Proof. vm_compute. reflexivity. Qed.

(** ** C4: exceptions that leave the handler *)




(** ** C9: example entries without a file name *)

Lemma examples_loop_skip (E : libs) (msg : pystr) (before : list FileStorage)
    (f : FileStorage) (after : list FileStorage) :
  filename f = [] ->
  forall text w,
    examples_loop E msg (before ++ f :: after) text w
    = examples_loop E msg (before ++ after) text w.
Proof.
  intros Hf. induction before as [|g before IH]; intros text w; simpl.
  - by rewrite Hf.
  - destruct (eqb (filename g) []); [apply IH|].
    apply bind_ext; [reflexivity|]. intros text' w'. apply IH.
Qed.

Lemma getlist_app {V} (d1 d2 : list (pystr * V)) (key : pystr) :
  MultiDict.getlist (d1 ++ d2) key
  = MultiDict.getlist d1 key ++ MultiDict.getlist d2 key.
Proof.
  induction d1 as [|[k v] d1 IH]; simpl; [done|].
  destruct (eqb k key); simpl; by rewrite IH.
Qed.

Lemma get_app {V} (d1 d2 : list (pystr * V)) (key : pystr) :
  MultiDict.get (d1 ++ d2) key
  = match MultiDict.get d1 key with
    | Some v => Some v
    | None => MultiDict.get d2 key
    end.
Proof.
  induction d1 as [|[k v] d1 IH]; simpl; [done|].
  by destruct (eqb k key).
Qed.

Lemma contains_false_getlist {V} (d : list (pystr * V)) (key : pystr) :
  MultiDict.contains d key = false -> MultiDict.getlist d key = [].
Proof.
  unfold MultiDict.contains.
  induction d as [|[k v] d IH]; simpl; [done|].
  destruct (eqb k key); simpl; [done|]. apply IH.
Qed.

Lemma contains_true_app {V} (d1 d2 : list (pystr * V)) (k : pystr) (v : V) :
  MultiDict.contains (d1 ++ (k, v) :: d2) k = true.
Proof.
  unfold MultiDict.contains. rewrite existsb_app. simpl.
  unfold eqb at 2. rewrite bool_decide_eq_true_2 by reflexivity.
  by rewrite orb_true_r.
Qed.

Lemma contains_app_other {V} (d1 d2 : list (pystr * V)) (k key : pystr) (v : V) :
  k <> key ->
  MultiDict.contains (d1 ++ (k, v) :: d2) key = MultiDict.contains (d1 ++ d2) key.
Proof.
  intros Hk. unfold MultiDict.contains. rewrite !existsb_app. simpl.
  unfold eqb at 2. by rewrite bool_decide_eq_false_2.
Qed.

Lemma examples_skip (E : libs) (key' msg : pystr) (fields : list (pystr * pystr))
    (before after : list (pystr * FileStorage)) (key : pystr) (f : FileStorage)
    (w : world) :
  filename f = [] ->
  examples E key' msg {| form := fields; files := before ++ (key, f) :: after |} w
  = examples E key' msg {| form := fields; files := before ++ after |} w.
Proof.
  intros Hf. unfold examples. simpl.
  destruct (decide (key = key')) as [->|Hne].
  - rewrite contains_true_app.
    rewrite getlist_app. simpl. unfold eqb at 1.
    rewrite bool_decide_eq_true_2 by reflexivity.
    rewrite examples_loop_skip by assumption.
    rewrite <- getlist_app.
    destruct (MultiDict.contains (before ++ after) key') eqn:Hc; [reflexivity|].
    by rewrite (contains_false_getlist _ _ Hc).
  - rewrite contains_app_other by assumption.
    rewrite !getlist_app. simpl. unfold eqb at 1.
    by rewrite bool_decide_eq_false_2.
Qed.

(** C9: an entry of either example set whose file name is empty is
    skipped: the request is handled exactly as the request without that
    entry, with the same response, the same upload directory and the same
    log of effects. So the entry is not staged, no extraction is tried on
    it, it causes no error, and the entries after it are processed. *)
Theorem C9_unnamed_example_skipped (E : libs) (key : pystr) (f : FileStorage)
    (fields : list (pystr * pystr)) (before after : list (pystr * FileStorage))
    (w : world) :
  key = u8 "valid_examples" \/ key = u8 "invalid_examples" ->
  filename f = [] ->
  handle E {| form := fields; files := before ++ (key, f) :: after |} w
  = handle E {| form := fields; files := before ++ after |} w.
Proof.
  intros Hkey Hf.
  assert (Hdoc : MultiDict.get (before ++ (key, f) :: after) (u8 "document")
                 = MultiDict.get (before ++ after) (u8 "document")).
  { rewrite !get_app. simpl.
    replace (eqb key (u8 "document")) with false; [done|].
    destruct Hkey as [-> | ->]; vm_compute; reflexivity. }
  unfold handle.
  replace (validate E {| form := fields; files := before ++ (key, f) :: after |} w)
    with (validate E {| form := fields; files := before ++ after |} w);
    [reflexivity|].
  unfold validate. simpl. rewrite Hdoc.
  destruct (eqb _ []); [reflexivity|].
  destruct (present _) as [document_file|]; [|reflexivity].
  apply bind_ext; [reflexivity|]. intros _ w1.
  apply bind_ext; [reflexivity|]. intros precent w2.
  apply bind_ext; [symmetry; by apply examples_skip|]. intros vt w3.
  apply bind_ext; [symmetry; by apply examples_skip|]. intros it w4.
  reflexivity.
Qed.

Lemma C9_unnamed_example_skipped_witness :
  handle (Demo.libs_with (Returns Demo.verdict_reply))
         {| form := [(u8 "requirements", Demo.requirements_text);
                     (u8 "precent", u8 "70")];
            files := [(u8 "document", Demo.file "contract.pdf" "text")]
                     ++ (u8 "valid_examples", Demo.file "" "") ::
                        [(u8 "valid_examples", Demo.file "good.docx" "signed")] |}
         Demo.empty_world
  = handle (Demo.libs_with (Returns Demo.verdict_reply))
         {| form := [(u8 "requirements", Demo.requirements_text);
                     (u8 "precent", u8 "70")];
            files := [(u8 "document", Demo.file "contract.pdf" "text")]
                     ++ [(u8 "valid_examples", Demo.file "good.docx" "signed")] |}
         Demo.empty_world.
Proof.
  apply (C9_unnamed_example_skipped
           (Demo.libs_with (Returns Demo.verdict_reply))
           (u8 "valid_examples") (Demo.file "" "")).
  - left. reflexivity.
  - reflexivity.
Defined.

(** ** C10: the requirements are stripped *)

Lemma lstrip_with_spec (space : N -> bool) (s : pystr) :
  exists a, s = a ++ lstrip_with space s
    /\ Forall (fun c => space c = true) a
    /\ (forall c r, lstrip_with space s = c :: r -> space c = false).
Proof.
  induction s as [|c s (a & Hs & Ha & Hhd)]; simpl.
  - exists []. by repeat split.
  - destruct (space c) eqn:Hc.
    + exists (c :: a). split; [simpl; congruence|]. split; [by constructor|done].
    + exists []. split; [done|]. split; [constructor|].
      intros c' r [= <- _]. done.
Qed.

Lemma lstrip_with_all (space : N -> bool) (s : pystr) :
  Forall (fun c => space c = true) s -> lstrip_with space s = [].
Proof.
  induction 1 as [|c s Hc _ IH]; simpl; [done|]. by rewrite Hc.
Qed.

(** [strip_with] removes a run of white space at each end and nothing
    else, and what is left neither starts nor ends with white space. *)
Lemma strip_with_spec (space : N -> bool) (s : pystr) :
  exists a b, s = a ++ strip_with space s ++ b
    /\ Forall (fun c => space c = true) a
    /\ Forall (fun c => space c = true) b
    /\ (forall c, head (strip_with space s) = Some c -> space c = false)
    /\ (forall c, last (strip_with space s) = Some c -> space c = false).
Proof.
  unfold strip_with.
  destruct (lstrip_with_spec space s) as (a & Hs & Ha & Hhd).
  set (t := lstrip_with space s) in *.
  destruct (lstrip_with_spec space (rev t)) as (b & Ht & Hb & Hhd').
  set (u := lstrip_with space (rev t)) in *.
  assert (Ht' : t = rev u ++ rev b).
  { rewrite <- rev_app_distr, <- Ht. by rewrite rev_involutive. }
  exists a, (rev b). split; [by rewrite <- Ht'|].
  split; [done|]. split; [by apply Forall_rev|]. split.
  - intros c Hc.
    destruct (rev u) as [|c' r] eqn:Hu; [done|]. simpl in Hc. injection Hc as ->.
    apply (Hhd c (r ++ rev b)). by rewrite Ht'.
  - intros c Hc.
    destruct u as [|c' r]; [done|]. simpl in Hc. rewrite last_snoc in Hc.
    injection Hc as ->. by apply (Hhd' c r).
Qed.

Lemma strip_all_space (s : pystr) :
  Forall (fun c => is_space c = true) s -> strip s = [].
Proof.
  intros H. unfold strip, strip_with.
  by rewrite (lstrip_with_all _ _ H).
Qed.

Lemma prompts_chat (w : world) (st : gmap pystr bytes) (p : pystr) :
  prompts {| storage := st; trace := trace w ++ [Chatted p] |}
  = prompts w ++ [p].
Proof. unfold prompts. simpl. by rewrite omap_app. Qed.

Lemma threshold_end (E : libs) (precent : pystr) (w : world) :
  (exists q, threshold E precent w = (Value q, w))
  \/ (exists e, threshold E precent w = (Raise e, w)).
Proof.
  unfold threshold.
  destruct (py_int _ _) as [n|]; [|right; by eexists].
  destruct (truediv_100 n) as [q|]; [left|right]; by eexists.
Qed.

(** The prompts a request sends: none, or the one built from the stripped
    requirements. *)
Lemma validate_prompts (E : libs) (req : request) (w : world) :
  exists sent,
    prompts (snd (validate E req w)) = prompts w ++ sent
    /\ (sent = []
        \/ exists valid_examples invalid_examples document_text precent,
            sent = [build_prompt E
                      (strip (default [] (MultiDict.get (form req)
                                            (u8 "requirements"))))
                      valid_examples invalid_examples document_text precent]).
Proof.
  assert (Hnone : forall w', prompts w' = prompts w ->
            exists sent, prompts w' = prompts w ++ sent /\ (sent = [] \/
              exists v i d q, sent = [build_prompt E
                (strip (default [] (MultiDict.get (form req) (u8 "requirements"))))
                v i d q])).
  { intros w' Hw'. exists []. rewrite app_nil_r. by split; [|left]. }
  unfold validate.
  destruct (eqb _ []); [by apply Hnone|].
  destruct (present _) as [document_file|]; [|by apply Hnone].
  unfold bind at 1. unfold save at 1.
  destruct (save_error E _ _); [by apply Hnone|].
  set (w1 := {| storage := _; trace := _ |}).
  assert (Hw1 : prompts w1 = prompts w) by (by apply prompts_update).
  unfold bind at 1.
  destruct (threshold_end E (default [] (MultiDict.get (form req) (u8 "precent"))) w1)
    as [[q ->]|[e ->]]; [|by apply Hnone].
  unfold bind at 1.
  destruct (examples_end_of E (u8 "valid_examples") (msg_valid_example) req w1)
    as [vt w3 Hw3|reason w3 Hw3].
  2: { apply Hnone. simpl. congruence. }
  unfold bind at 1.
  destruct (examples_end_of E (u8 "invalid_examples") (msg_invalid_example) req w3)
    as [it w4 Hw4|reason w4 Hw4].
  2: { apply Hnone. simpl. congruence. }
  unfold bind at 1. unfold try_except.
  destruct (extract_text_end E (upload_path (filename document_file)) w4)
    as (w5 & Hw5 & [[t Ht]|[e He]]).
  2: { rewrite He. unfold bind, unlink, return_. simpl. apply Hnone.
       rewrite prompts_update by done. congruence. }
  rewrite Ht.
  unfold bind at 1. unfold unlink at 1.
  set (w6 := {| storage := _; trace := _ |}).
  assert (Hw6 : prompts w6 = prompts w).
  { unfold w6. rewrite prompts_update by done. congruence. }
  unfold bind at 1. unfold validate_text, bind, chat_call.
  match goal with |- context [Chatted ?p] => set (prompt := p) end.
  assert (Hsent : prompts {| storage := storage w6;
                             trace := trace w6 ++ [Chatted prompt] |}
                  = prompts w ++ [prompt]).
  { rewrite prompts_chat. by rewrite Hw6. }
  exists [prompt].
  split; [|right; by exists vt, it, t, q].
  destruct (chat E prompt); simpl; exact Hsent.
Qed.

(** C10: the value of the requirements field is stripped of the white
    space at its two ends (and of nothing else) before it is tested and
    before it is used: a field made of white space only is rejected with
    status 400 and the reason for missing requirements, nothing being
    staged; and a prompt sent for the request is built from the stripped
    requirements. *)
Theorem C10_requirements_stripped (E : libs) (req : request) (w : world) :
  let raw := default [] (MultiDict.get (form req) (u8 "requirements")) in
  (exists a b, raw = a ++ strip raw ++ b
     /\ Forall (fun c => is_space c = true) a
     /\ Forall (fun c => is_space c = true) b
     /\ (forall c, head (strip raw) = Some c -> is_space c = false)
     /\ (forall c, last (strip raw) = Some c -> is_space c = false))
  /\ (Forall (fun c => is_space c = true) raw ->
      handle E req w
      = (Responded (jsonify (error_verdict
                      (u8 "لم يتم إدخال متطلبات التحقق.")) 400), w))
  /\ (exists sent,
        prompts (snd (handle E req w)) = prompts w ++ sent
        /\ (sent = []
            \/ exists valid_examples invalid_examples document_text precent,
                sent = [build_prompt E (strip raw) valid_examples
                                     invalid_examples document_text precent])).
Proof.
  cbv zeta. split; [apply strip_with_spec|]. split.
  - intros Hall. unfold handle, validate.
    rewrite (strip_all_space _ Hall). reflexivity.
  - destruct (validate_prompts E req w) as (sent & Hs & Hsent).
    exists sent. split; [|exact Hsent].
    unfold handle. by destruct (validate E req w) as [[r|e|r] w'].
Qed.

Lemma C10_requirements_stripped_witness :
  handle (Demo.libs_with (Returns Demo.verdict_reply))
         {| form := [(u8 "requirements", u8 " 	
"); (u8 "precent", u8 "70")];
            files := [(u8 "document", Demo.file "contract.pdf" "text")] |}
         Demo.empty_world
  = (Responded (jsonify (error_verdict
                  (u8 "لم يتم إدخال متطلبات التحقق.")) 400), Demo.empty_world).
Proof.
  apply (C10_requirements_stripped
           (Demo.libs_with (Returns Demo.verdict_reply))
           {| form := [(u8 "requirements", u8 " 	
"); (u8 "precent", u8 "70")];
              files := [(u8 "document", Demo.file "contract.pdf" "text")] |}).
  vm_compute. repeat constructor.
Defined.

Example requirements_embedded_stripped :
  prompts (snd (handle (Demo.libs_with (Returns Demo.verdict_reply))
    {| form := [(u8 "requirements", u8 "  Must be signed.
"); (u8 "precent", u8 "70")];
       files := [(u8 "document", Demo.file "contract.pdf" "text")] |}
    Demo.empty_world))
  = [build_prompt (Demo.libs_with (Returns Demo.verdict_reply))
       (u8 "Must be signed.") [] [] (Some (u8 "text")) (7 # 10)].
Proof. vm_compute. reflexivity. Qed.

(** * Further properties of the pipeline *)


Ltac decide_now := apply (bool_decide_unpack _); vm_compute; exact I.

Lemma untouched_refl paths w : untouched paths w w.
Proof. by intros p _. Qed.

Lemma untouched_trans paths w1 w2 w3 :
  untouched paths w1 w2 -> untouched paths w2 w3 -> untouched paths w1 w3.
Proof. intros H12 H23 p Hp. rewrite (H23 p Hp). by apply H12. Qed.

Lemma untouched_weaken paths paths' w w' :
  paths ⊆ paths' -> untouched paths w w' -> untouched paths' w w'.
Proof. intros Hsub H p Hp. apply H. intros Hin. apply Hp. by apply Hsub. Qed.

Lemma untouched_insert paths w k v tr :
  k ∈ paths ->
  untouched paths w {| storage := <[k := v]> (storage w); trace := tr |}.
Proof.
  intros Hk p Hp. simpl. apply lookup_insert_ne. intros ->. by apply Hp.
Qed.

Lemma untouched_delete paths w k tr :
  k ∈ paths ->
  untouched paths w {| storage := delete k (storage w); trace := tr |}.
Proof.
  intros Hk p Hp. simpl. apply lookup_delete_ne. intros ->. by apply Hp.
Qed.

Lemma untouched_log paths w tr :
  untouched paths w {| storage := storage w; trace := tr |}.
Proof. by intros p _. Qed.

Lemma extract_text_storage (E : libs) (path : Path.t) (w : world) :
  storage (snd (extract_text E path w)) = storage w.
Proof.
  unfold extract_text.
  destruct (eqb _ _).
  { unfold bind, open_with, ret. by destruct (fitz_pages E _ _). }
  destruct (eqb _ _).
  { unfold bind, open_with, ret. by destruct (docx_paragraphs E _ _). }
  reflexivity.
Qed.





Lemma filter_named_cons_skip (f : FileStorage) (l : list FileStorage) :
  eqb (filename f) [] = true -> List.filter named (f :: l) = List.filter named l.
Proof. intros H. simpl. unfold named. by rewrite H. Qed.

Lemma filter_named_cons_keep (f : FileStorage) (l : list FileStorage) :
  eqb (filename f) [] = false ->
  List.filter named (f :: l) = f :: List.filter named l.
Proof. intros H. simpl. unfold named. by rewrite H. Qed.


Lemma examples_loop_exit (E : libs) (msg : pystr) (l : list FileStorage) :
  forall text w,
    examples_exit msg (List.map staged_path (List.filter named l)) w
                  (examples_loop E msg l text w).
Proof.
  induction l as [|f rest IH]; intros text w.
  - constructor; [done|apply untouched_refl].
  - cbn [examples_loop].
    destruct (eqb (filename f) []) eqn:Hname.
    { rewrite (filter_named_cons_skip _ _ Hname). apply IH. }
    rewrite (filter_named_cons_keep _ _ Hname). cbn [List.map].
    set (paths := staged_path f :: _).
    assert (Hin : staged_path f ∈ paths) by (by left).
    unfold bind at 1. unfold try_except.
    unfold bind at 1. unfold save. fold (staged_path f).
    destruct (save_error E _ _) as [err|].
    { unfold return_. constructor; [done|apply untouched_refl]. }
    set (w1 := {| storage := _; trace := _ |}).
    assert (Hw1 : prompts w1 = prompts w) by (by apply prompts_update).
    assert (Hu1 : untouched paths w w1) by (by apply untouched_insert).
    unfold bind at 1.
    destruct (extract_text_end E (upload_path (filename f)) w1)
      as (w2 & Hw2 & Hext).
    assert (Hs2 : storage w2 = storage w1).
    { pose proof (extract_text_storage E (upload_path (filename f)) w1) as Hst.
      destruct Hext as [[t Ht]|[e He]]; [rewrite Ht in Hst|rewrite He in Hst];
        exact Hst. }
    assert (Hu2 : untouched paths w w2).
    { intros p Hp. rewrite Hs2. by apply Hu1. }
    destruct Hext as [[t Ht]|[e He]].
    2: { rewrite He. unfold return_. constructor; [congruence|done]. }
    rewrite Ht. destruct t as [t|]; cbn [add_separator].
    2: { unfold bind, raise, return_. constructor; [congruence|done]. }
    unfold bind, ret, unlink. fold (staged_path f).
    set (w3 := {| storage := _; trace := _ |}).
    assert (Hw3 : prompts w3 = prompts w).
    { unfold w3. rewrite prompts_update by done. congruence. }
    assert (Hu3 : untouched paths w w3).
    { eapply untouched_trans; [exact Hu2|]. by apply untouched_delete. }
    destruct (IH (text ++ t ++ separator) w3) as [t' w' Hp' Hu'|reason w' Hp' Hu'];
      constructor; try congruence;
      (eapply untouched_trans; [exact Hu3|]);
      (eapply untouched_weaken; [|exact Hu']); by apply list_subseteq_cons.
Qed.

Lemma examples_unfold (E : libs) (key msg : pystr) (req : request) (w : world) :
  examples E key msg req w
  = examples_loop E msg (MultiDict.getlist (files req) key) [] w.
Proof.
  unfold examples.
  destruct (MultiDict.contains _ _) eqn:Hc; [reflexivity|].
  by rewrite (contains_false_getlist _ _ Hc).
Qed.

Lemma staged_paths_doc (req : request) (doc : FileStorage) :
  present (MultiDict.get (files req) (u8 "document")) = Some doc ->
  staged_path doc ∈ staged_paths req.
Proof. intros H. unfold staged_paths. rewrite H. by left. Qed.

Lemma staged_paths_valid (req : request) :
  List.map staged_path (example_files req (u8 "valid_examples"))
  ⊆ staged_paths req.
Proof.
  unfold staged_paths. intros p Hp.
  apply elem_of_app. right. apply elem_of_app. by left.
Qed.

Lemma staged_paths_invalid (req : request) :
  List.map staged_path (example_files req (u8 "invalid_examples"))
  ⊆ staged_paths req.
Proof.
  unfold staged_paths. intros p Hp.
  apply elem_of_app. right. apply elem_of_app. by right.
Qed.

Lemma handle_handled (E : libs) (req : request) (w : world) :
  handled E req w (handle E req w).
Proof.
  unfold handle, validate.
  destruct (eqb _ []) eqn:Hreq.
  { unfold return_. apply handled_no_requirements.
    unfold eqb in Hreq. by apply bool_decide_eq_true in Hreq. }
  destruct (present _) as [doc|] eqn:Hdoc.
  2: { unfold return_. by apply handled_no_document. }
  pose proof (staged_paths_doc req doc Hdoc) as Hin.
  unfold bind at 1. unfold save at 1. fold (staged_path doc).
  destruct (save_error E _ _) as [msg|] eqn:Hsave.
  { by eapply handled_save_failed. }
  set (w1 := {| storage := _; trace := _ |}).
  assert (Hw1 : prompts w1 = prompts w) by (by apply prompts_update).
  assert (Hu1 : untouched (staged_paths req) w w1) by (by apply untouched_insert).
  unfold bind at 1.
  destruct (threshold_end E (default [] (MultiDict.get (form req) (u8 "precent"))) w1)
    as [[q Hth]|[e Hth]]; rewrite Hth.
  2: { by eapply handled_percentage. }
  unfold bind at 1. rewrite examples_unfold.
  destruct (examples_loop_exit E msg_valid_example
              (MultiDict.getlist (files req) (u8 "valid_examples")) [] w1)
    as [vt w2 Hp2 Hu2|reason w2 Hp2 Hu2].
  2: { apply handled_example_failed; [by left|congruence|].
       eapply untouched_trans; [exact Hu1|].
       eapply untouched_weaken; [apply staged_paths_valid|exact Hu2]. }
  assert (Hu2' : untouched (staged_paths req) w w2).
  { eapply untouched_trans; [exact Hu1|].
    eapply untouched_weaken; [apply staged_paths_valid|exact Hu2]. }
  unfold bind at 1. rewrite examples_unfold.
  destruct (examples_loop_exit E msg_invalid_example
              (MultiDict.getlist (files req) (u8 "invalid_examples")) [] w2)
    as [it w3 Hp3 Hu3|reason w3 Hp3 Hu3].
  2: { apply handled_example_failed; [by right|congruence|].
       eapply untouched_trans; [exact Hu2'|].
       eapply untouched_weaken; [apply staged_paths_invalid|exact Hu3]. }
  assert (Hu3' : untouched (staged_paths req) w w3).
  { eapply untouched_trans; [exact Hu2'|].
    eapply untouched_weaken; [apply staged_paths_invalid|exact Hu3]. }
  unfold bind at 1. unfold try_except.
  destruct (extract_text_end E (upload_path (filename doc)) w3)
    as (w4 & Hp4 & Hext).
  assert (Hs4 : storage w4 = storage w3).
  { pose proof (extract_text_storage E (upload_path (filename doc)) w3) as Hst.
    destruct Hext as [[t Ht]|[e He]]; [rewrite Ht in Hst|rewrite He in Hst];
      exact Hst. }
  assert (Hu4 : untouched (staged_paths req) w w4).
  { intros p Hp. rewrite Hs4. by apply Hu3'. }
  destruct Hext as [[t Ht]|[e He]].
  2: { rewrite He. unfold bind, unlink, return_. fold (staged_path doc).
       eapply handled_document_failed; [exact Hdoc| | |].
       - rewrite prompts_update by done. congruence.
       - eapply untouched_trans; [exact Hu4|]. by apply untouched_delete.
       - apply lookup_delete_eq. }
  rewrite Ht.
  unfold bind at 1. unfold unlink at 1. fold (staged_path doc).
  set (w5 := {| storage := _; trace := _ |}).
  assert (Hp5 : prompts w5 = prompts w).
  { unfold w5. rewrite prompts_update by done. congruence. }
  assert (Hu5 : untouched (staged_paths req) w w5).
  { eapply untouched_trans; [exact Hu4|]. by apply untouched_delete. }
  assert (Hd5 : storage w5 !! staged_path doc = None) by apply lookup_delete_eq.
  unfold bind at 1. unfold validate_text, bind, chat_call.
  match goal with |- context [Chatted ?p] => set (prompt := p) end.
  set (w6 := {| storage := storage w5; trace := _ |}).
  assert (Hp6 : prompts w6 = prompts w ++ [prompt]).
  { unfold w6. rewrite prompts_chat. by rewrite Hp5. }
  assert (Hu6 : untouched (staged_paths req) w w6).
  { eapply untouched_trans; [exact Hu5|]. apply untouched_log. }
  destruct (chat E prompt) as [content|msg] eqn:Hchat.
  - unfold ret, return_. by eapply handled_verdict.
  - by eapply handled_model_failed.
Qed.














(** X3: a response whose status is not 200 was produced without calling
    the model. When the model was called, it was called once, with one
    prompt, and the staged document was already deleted from the upload
    directory. *)
Theorem model_called_last (E : libs) (req : request) (w : world) :
  (forall r, fst (handle E req w) = Responded r -> status r <> 200%Z ->
     prompts (snd (handle E req w)) = prompts w)
  /\ (prompts (snd (handle E req w)) <> prompts w ->
      exists doc prompt,
        present (MultiDict.get (files req) (u8 "document")) = Some doc
        /\ prompts (snd (handle E req w)) = prompts w ++ [prompt]
        /\ storage (snd (handle E req w)) !! staged_path doc = None).
Proof.
  split.
  - intros r Hr Hstatus.
    destruct (handle_handled E req w)
      as [Hreq|Hdoc|doc msg Hdoc Hsave|doc e Hdoc Hth|msg reason w' Hmsg Hp Hu
          |doc e w' Hdoc Hp Hu Hd|doc prompt msg w' Hdoc Hchat Hp Hu Hd
          |doc prompt content w' Hdoc Hchat Hp Hu Hd]; cbn [fst snd] in *.
    + reflexivity.
    + reflexivity.
    + discriminate Hr.
    + discriminate Hr.
    + exact Hp.
    + exact Hp.
    + discriminate Hr.
    + injection Hr as <-. by destruct Hstatus.
  - intros Hsent.
    destruct (handle_handled E req w)
      as [Hreq|Hdoc|doc msg Hdoc Hsave|doc e Hdoc Hth|msg reason w' Hmsg Hp Hu
          |doc e w' Hdoc Hp Hu Hd|doc prompt msg w' Hdoc Hchat Hp Hu Hd
          |doc prompt content w' Hdoc Hchat Hp Hu Hd]; cbn [fst snd] in *.
    + by destruct Hsent.
    + by destruct Hsent.
    + by destruct Hsent.
    + destruct Hsent. apply prompts_update. discriminate.
    + by destruct Hsent.
    + by destruct Hsent.
    + by exists doc, prompt.
    + by exists doc, prompt.
Qed.

Lemma model_called_last_witness :
  prompts (snd (handle (Demo.faulty_libs (Returns Demo.verdict_reply))
                       (Demo.post (Demo.percent "70")
                          [(u8 "document", Demo.file "contract.pdf" "")])
                       Demo.empty_world))
  = prompts Demo.empty_world.
Proof.
  apply (proj1 (model_called_last
                  (Demo.faulty_libs (Returns Demo.verdict_reply))
                  (Demo.post (Demo.percent "70")
                     [(u8 "document", Demo.file "contract.pdf" "")])
                  Demo.empty_world)
               (jsonify (error_verdict
                  (u8 "تعذر قراءة المستند: "
                   ++ u8 "Cannot open empty file: 'uploads/contract.pdf'")) 500)).
  - vm_compute. reflexivity.
  - vm_compute. discriminate.
Defined.
















Lemma lstrip_with_app_space (space : N -> bool) (a s : pystr) :
  Forall (fun c => space c = true) a ->
  lstrip_with space (a ++ s) = lstrip_with space s.
Proof. induction 1 as [|c a Hc _ IH]; simpl; [done|]. by rewrite Hc. Qed.

Lemma lstrip_with_app_keep (space : N -> bool) (s b : pystr) :
  lstrip_with space s <> [] ->
  lstrip_with space (s ++ b) = lstrip_with space s ++ b.
Proof.
  induction s as [|c s IH]; simpl; [done|].
  destruct (space c); [exact IH|done].
Qed.

Lemma lstrip_with_nil_all (space : N -> bool) (s : pystr) :
  lstrip_with space s = [] -> Forall (fun c => space c = true) s.
Proof.
  induction s as [|c s IH]; simpl; [constructor|].
  destruct (space c) eqn:Hc; [|done]. intros H. constructor; auto.
Qed.

(** White space added at the two ends does not change what [strip_with]
    returns. *)
Lemma strip_with_pad (space : N -> bool) (a s b : pystr) :
  Forall (fun c => space c = true) a ->
  Forall (fun c => space c = true) b ->
  strip_with space (a ++ s ++ b) = strip_with space s.
Proof.
  intros Ha Hb. unfold strip_with.
  rewrite (lstrip_with_app_space _ _ _ Ha).
  destruct (lstrip_with space s) as [|c t] eqn:Hs.
  - apply lstrip_with_nil_all in Hs.
    rewrite (lstrip_with_all space (s ++ b)); [done|]. by apply Forall_app.
  - rewrite lstrip_with_app_keep by (by rewrite Hs). rewrite Hs.
    rewrite rev_app_distr.
    rewrite lstrip_with_app_space; [done|]. by apply Forall_rev.
Qed.

Lemma get_cons_same {V} (k : pystr) (v : V) (d : list (pystr * V)) :
  MultiDict.get ((k, v) :: d) k = Some v.
Proof. simpl. unfold eqb. by rewrite bool_decide_eq_true_2. Qed.

Lemma get_cons_other {V} (k key : pystr) (v : V) (d : list (pystr * V)) :
  k <> key -> MultiDict.get ((k, v) :: d) key = MultiDict.get d key.
Proof. intros H. simpl. unfold eqb. by rewrite bool_decide_eq_false_2. Qed.

(** X10: white space added before and after the value of the
    requirements field changes nothing: the response, the upload
    directory and the log of effects are the same. *)
Theorem requirements_padding (E : libs) (fields : list (pystr * pystr))
    (uploads : list (pystr * FileStorage)) (a r b : pystr) (w : world) :
  Forall (fun c => is_space c = true) a ->
  Forall (fun c => is_space c = true) b ->
  handle E {| form := (u8 "requirements", a ++ r ++ b) :: fields;
              files := uploads |} w
  = handle E {| form := (u8 "requirements", r) :: fields;
                files := uploads |} w.
Proof.
  intros Ha Hb. unfold handle, validate, examples. cbn [form files].
  rewrite !get_cons_same.
  rewrite !(get_cons_other (u8 "requirements") (u8 "precent"))
    by (vm_compute; discriminate).
  cbn [from_option id]. unfold strip.
  rewrite (strip_with_pad is_space a r b Ha Hb).
  reflexivity.
Qed.

Lemma requirements_padding_witness :
  handle (Demo.libs_with (Returns Demo.verdict_reply))
         {| form := (u8 "requirements",
                     u8 "  " ++ u8 "Must be signed." ++ u8 "
") :: Demo.percent "70";
            files := [(u8 "document", Demo.file "contract.pdf" "text")] |}
         Demo.empty_world
  = handle (Demo.libs_with (Returns Demo.verdict_reply))
         {| form := (u8 "requirements", u8 "Must be signed.")
                    :: Demo.percent "70";
            files := [(u8 "document", Demo.file "contract.pdf" "text")] |}
         Demo.empty_world.
Proof.
  apply (requirements_padding (Demo.libs_with (Returns Demo.verdict_reply))).
  - vm_compute. repeat constructor.
  - vm_compute. repeat constructor.
Defined.

Lemma rfind_app_sep (c : N) (x y : pystr) :
  c ∉ y -> rfind c (x ++ c :: y) = Some (length x).
Proof.
  intros Hy.
  assert (Hnone : rfind c y = None).
  { induction y as [|d y IH]; [done|]. simpl.
    apply not_elem_of_cons in Hy as [Hd Hy]. rewrite (IH Hy).
    destruct (d =? c) eqn:Hdc; [apply N.eqb_eq in Hdc; congruence|done]. }
  induction x as [|d x IH]; simpl.
  - by rewrite Hnone, N.eqb_refl.
  - by rewrite IH.
Qed.

(** The path and the suffix of a plain file name [stem.ext]. *)
Lemma upload_path_plain (stem ext : pystr) :
  stem <> [] -> ext <> [] -> 47 ∉ stem -> 47 ∉ ext -> 46 ∉ ext ->
  Path.to_str (upload_path (stem ++ [46] ++ ext))
  = u8 "uploads/" ++ stem ++ [46] ++ ext
  /\ Path.suffix (upload_path (stem ++ [46] ++ ext)) = [46] ++ ext.
Proof.
  intros Hstem Hext Hs1 Hs2 Hdot.
  set (name := stem ++ [46] ++ ext).
  assert (Hname_slash : 47 ∉ name).
  { unfold name. intros [H|[H|H]%elem_of_app]%elem_of_app; [done| |done].
    apply list_elem_of_singleton in H. discriminate. }
  assert (Hname : exists c r, name = c :: r /\ c <> 47).
  { unfold name. destruct stem as [|c r]; [done|]. exists c, (r ++ [46] ++ ext).
    split; [done|]. intros ->. apply Hs1. by left. }
  destruct Hname as (c0 & r0 & Hname0 & Hc0).
  assert (Hpart : Path.is_part name = true).
  { unfold Path.is_part, eqb.
    rewrite bool_decide_eq_false_2 by (by rewrite Hname0).
    rewrite bool_decide_eq_false_2; [done|].
    unfold name. destruct stem as [|c [|c' r]]; [done| |done].
    destruct ext; [done|]. done. }
  assert (Hparts : upload_path name
                   = {| Path.root := []; Path.parts := [u8 "uploads"; name] |}).
  { unfold upload_path, Path.posix_join, UPLOAD_FOLDER.
    rewrite Hname0. apply N.eqb_neq in Hc0. rewrite Hc0. rewrite <- Hname0.
    unfold Path.of_str. f_equal.
    change (u8 "uploads" ++ [47] ++ name) with (u8 "uploads" ++ 47 :: name).
    rewrite split_app_sep by (vm_compute; intros H; by repeat
      (apply elem_of_cons in H as [H|H]; [discriminate|]);
       apply elem_of_nil in H).
    rewrite split_no_sep by assumption.
    cbn [List.filter]. rewrite Hpart. reflexivity. }
  rewrite Hparts. split.
  - unfold Path.to_str. cbn [Path.root Path.parts join app].
    reflexivity.
  - unfold Path.suffix, Path.name. cbn [Path.parts List.last].
    unfold name at 1. change ([46] ++ ext) with (46 :: ext).
    rewrite rfind_app_sep by assumption.
    assert (Hlen : length name = (length stem + S (length ext))%nat).
    { unfold name. rewrite !length_app. reflexivity. }
    rewrite Hlen.
    assert (H1 : (0 <? length stem)%nat = true).
    { apply Nat.ltb_lt. destruct stem; [done|simpl; lia]. }
    assert (H2 : (length stem <? length stem + S (length ext) - 1)%nat = true).
    { apply Nat.ltb_lt. destruct ext; [done|simpl; lia]. }
    rewrite H1, H2. cbn [andb].
    unfold name. by rewrite drop_app_length.
Qed.

(** X11: for a file name made of a non-empty stem, a dot and a non-empty
    extension without dot (and no slash), the staged path is the upload
    folder, a slash and the name, and the extension alone decides the
    extraction, whatever the case of its letters: [pdf] is read page by
    page, [docx] paragraph by paragraph, anything else gives [None]
    without opening the file. *)
Theorem extension_decides_format (E : libs) (stem ext : pystr) (w : world) :
  stem <> [] -> ext <> [] -> 47 ∉ stem -> 47 ∉ ext -> 46 ∉ ext ->
  let name := stem ++ [46] ++ ext in
  let p := u8 "uploads/" ++ name in
  let opened := {| storage := storage w; trace := trace w ++ [Opened p] |} in
  extract_text E (upload_path name) w
  = if decide (lower ext = u8 "pdf") then
      match fitz_pages E p (storage w !! p) with
      | Returns pages => (Value (Some (concat pages)), opened)
      | Raises msg => (Raise (LibraryError msg), opened)
      end
    else if decide (lower ext = u8 "docx") then
      match docx_paragraphs E p (storage w !! p) with
      | Returns paragraphs => (Value (Some (join [10] paragraphs)), opened)
      | Raises msg => (Raise (LibraryError msg), opened)
      end
    else (Value None, w).
Proof.
  intros Hstem Hext Hs1 Hs2 Hdot. cbv zeta.
  destruct (upload_path_plain stem ext Hstem Hext Hs1 Hs2 Hdot) as [Hp Hsuf].
  unfold extract_text. rewrite Hsuf.
  change (lower ([46] ++ ext)) with (46 :: lower ext).
  change (u8 ".pdf") with (46 :: u8 "pdf").
  change (u8 ".docx") with (46 :: u8 "docx").
  unfold eqb.
  destruct (decide (lower ext = u8 "pdf")) as [Hpdf|Hpdf].
  { rewrite bool_decide_eq_true_2 by (by rewrite Hpdf).
    unfold bind, open_with, ret. rewrite Hp.
    destruct (fitz_pages E _ _); [|reflexivity].
    by rewrite fold_left_app_concat. }
  rewrite bool_decide_eq_false_2 by (intros [= H]; done).
  destruct (decide (lower ext = u8 "docx")) as [Hdocx|Hdocx].
  { rewrite bool_decide_eq_true_2 by (by rewrite Hdocx).
    unfold bind, open_with, ret. rewrite Hp.
    by destruct (docx_paragraphs E _ _). }
  rewrite bool_decide_eq_false_2 by (intros [= H]; done).
  reflexivity.
Qed.

Lemma extension_decides_format_witness :
  extract_text (Demo.libs_with (Returns Demo.verdict_reply))
               (upload_path (u8 "Scan" ++ [46] ++ u8 "PDF"))
               (Demo.stored "uploads/Scan.PDF" "page one")
  = (Value (Some (u8 "page one")),
     {| storage := storage (Demo.stored "uploads/Scan.PDF" "page one");
        trace := [Opened (u8 "uploads/Scan.PDF")] |}).
Proof.
  etransitivity.
  - apply (extension_decides_format
             (Demo.libs_with (Returns Demo.verdict_reply))
             (u8 "Scan") (u8 "PDF")
             (Demo.stored "uploads/Scan.PDF" "page one")).
    + vm_compute. discriminate.
    + vm_compute. discriminate.
    + decide_now.
    + decide_now.
    + decide_now.
  - vm_compute. reflexivity.
Defined.
